(** * weather.py: a shallow embedding and its verified properties

    The development follows [src/weather.py] function by function.  Python
    values the module touches are modelled by the type [pyval]; Python
    exceptions by an error monad; Python floats by IEEE 754 binary64 as
    specified in [SpecFloat] (precision 53, maximal exponent 1024), so that
    every definition below evaluates on concrete inputs. *)

From Stdlib Require Import ZArith List String Ascii Bool Lia Arith.
From Stdlib Require Import SpecFloat.
Import ListNotations.

Local Open Scope string_scope.
Local Open Scope Z_scope.

(** ** Exceptions and the error monad *)

Module Py.

(** The exception classes that the code of weather.py can raise. *)
Inductive exn : Type :=
| TypeError
| ValueError
| KeyError
| IndexError
| OverflowError
| StatisticsError.

Inductive result (A : Type) : Type :=
| Ok (a : A)
| Raise (e : exn).

Arguments Ok {A} a.
Arguments Raise {A} e.

Definition bind {A B : Type} (c : result A) (k : A -> result B) : result B :=
  match c with
  | Ok a => k a
  | Raise e => Raise e
  end.

Definition is_ok {A : Type} (c : result A) : bool :=
  match c with
  | Ok _ => true
  | Raise _ => false
  end.

(** A list comprehension [[f x for x in l]]: elements are evaluated from left
    to right and the first exception aborts the whole comprehension. *)
Fixpoint comprehension {A B : Type} (f : A -> result B) (l : list A)
  : result (list B) :=
  match l with
  | [] => Ok []
  | x :: l' =>
      bind (f x) (fun y =>
      bind (comprehension f l') (fun ys => Ok (y :: ys)))
  end.

End Py.

Export Py.

Notation "x <- c ;; k" := (Py.bind c (fun x => k))
  (at level 61, c at next level, right associativity).
Notation "' pat <- c ;; k" := (Py.bind c (fun x => match x with pat => k end))
  (at level 61, pat pattern, c at next level, right associativity).

(** ** Python floats: IEEE 754 binary64 *)

Module Float.

Definition prec : Z := 53.
Definition emax : Z := 1024.

Definition float : Type := spec_float.

Definition fadd : float -> float -> float := SFadd prec emax.
Definition fsub : float -> float -> float := SFsub prec emax.
Definition fmul : float -> float -> float := SFmul prec emax.
Definition fdiv : float -> float -> float := SFdiv prec emax.
Definition flt : float -> float -> bool := SFltb.
Definition fgt (x y : float) : bool := SFltb y x.
Definition feq : float -> float -> bool := SFeqb.
Definition fle : float -> float -> bool := SFleb.

Definition is_nan (x : float) : bool :=
  match x with
  | S754_nan => true
  | _ => false
  end.

Definition is_finite (x : float) : bool :=
  match x with
  | S754_zero _ | S754_finite _ _ _ => true
  | _ => false
  end.

(** The double nearest to the rational [(-1)^s * p / q] (ties to even), or an
    infinity when the quotient is beyond the range of binary64.  This is the
    correctly rounded quotient that CPython computes for [int / int] and for
    decimal-to-binary conversion. *)
Definition of_ratio (s : bool) (p : Z) (q : positive) : float :=
  match p with
  | Zpos _ =>
      let '(mz, ez, lz) := SFdiv_core_binary prec emax p 0 (Zpos q) 0 in
      binary_round_aux prec emax s mz ez lz
  | _ => S754_zero s
  end.

(** The signed variant: the sign is the sign of the numerator and a zero
    numerator gives [+0.0]. *)
Definition of_Q (p : Z) (q : positive) : float :=
  of_ratio (p <? 0) (Z.abs p) q.

(** [float(n)] for a Python int: correctly rounded, and an [OverflowError]
    when [n] is too large for a double. *)
Definition of_int (n : Z) : result float :=
  match binary_normalize prec emax n 0 false with
  | S754_infinity _ => Raise OverflowError
  | x => Ok x
  end.

(** The exact value of a finite float as a fraction [num / den]. *)
Definition to_ratio (x : float) : Z * positive :=
  match x with
  | S754_finite s m e =>
      let n := if s then Zneg m else Zpos m in
      match e with
      | Zneg k => (n, Pos.pow 2 k)
      | _ => (n * 2 ^ e, 1%positive)
      end
  | _ => (0, 1%positive)
  end.

Definition sign_bit (x : float) : bool :=
  match x with
  | S754_zero s | S754_infinity s | S754_finite s _ _ => s
  | S754_nan => false
  end.

(** Rounding of the non-negative rational [a / b] to the nearest integer,
    ties to the even one. *)
Definition round_half_even (a : Z) (b : positive) : Z :=
  let q := a / Zpos b in
  let r := a mod Zpos b in
  match 2 * r ?= Zpos b with
  | Lt => q
  | Gt => q + 1
  | Eq => if Z.even q then q else q + 1
  end.

(** [round(x, 1)]: non-finite values round to themselves; a finite value is
    converted to the closest decimal with one digit after the point (the
    exact binary value is rounded, ties to even) and that decimal is
    converted back to the nearest double.  The sign of [x] is kept, also on
    a zero result. *)
Definition round1 (x : float) : float :=
  match x with
  | S754_finite s _ _ =>
      let '(n, d) := to_ratio x in
      of_ratio s (round_half_even (10 * Z.abs n) d) 10
  | _ => x
  end.

End Float.

Export Float.

(** ** Python strings and the conversions between text and numbers *)

Module Text.

Definition chars : string -> list ascii := list_ascii_of_string.
Definition text : list ascii -> string := string_of_list_ascii.

Definition is_digit (c : ascii) : bool :=
  let n := nat_of_ascii c in (48 <=? n)%nat && (n <=? 57)%nat.

Definition digit_value (c : ascii) : Z := Z.of_nat (nat_of_ascii c) - 48.

(** ASCII characters that [str.strip], [int] and [float] treat as blank. *)
Definition is_space (c : ascii) : bool :=
  let n := nat_of_ascii c in
  ((9 <=? n)%nat && (n <=? 13)%nat) || ((28 <=? n)%nat && (n <=? 32)%nat).

Fixpoint lstrip (cs : list ascii) : list ascii :=
  match cs with
  | c :: cs' => if is_space c then lstrip cs' else cs
  | [] => []
  end.

Definition strip (cs : list ascii) : list ascii :=
  rev (lstrip (rev (lstrip cs))).

Definition lower (c : ascii) : ascii :=
  let n := nat_of_ascii c in
  if (65 <=? n)%nat && (n <=? 90)%nat then ascii_of_nat (n + 32) else c.

(** The value of a string of decimal digits, most significant first. *)
Definition digits_value (ds : list ascii) : Z :=
  fold_left (fun acc c => 10 * acc + digit_value c) ds 0.

(** The longest prefix of digits, and the rest. *)
Fixpoint span_digits (cs : list ascii) : list ascii * list ascii :=
  match cs with
  | c :: cs' =>
      if is_digit c
      then let '(ds, rest) := span_digits cs' in (c :: ds, rest)
      else ([], cs)
  | [] => ([], [])
  end.

(** Underscores in numeric literals: one is allowed only between two
    digits.  Returns the text without them, or [None] on a misplaced one. *)
Fixpoint drop_underscores (prev : option ascii) (cs : list ascii)
  : option (list ascii) :=
  match cs with
  | [] =>
      match prev with
      | Some "_"%char => None
      | _ => Some []
      end
  | "_"%char :: cs' =>
      match prev with
      | Some p =>
          if is_digit p then drop_underscores (Some "_"%char) cs' else None
      | None => None
      end
  | c :: cs' =>
      match prev with
      | Some "_"%char =>
          if is_digit c
          then option_map (cons c) (drop_underscores (Some c) cs')
          else None
      | _ => option_map (cons c) (drop_underscores (Some c) cs')
      end
  end.

Definition split_sign (cs : list ascii) : bool * list ascii :=
  match cs with
  | "-"%char :: cs' => (true, cs')
  | "+"%char :: cs' => (false, cs')
  | _ => (false, cs)
  end.

(** [int(s)] for a string, base ten: blanks around, an optional sign, and
    digits with single underscores between them. *)
Definition int_of_string (s : string) : result Z :=
  match drop_underscores None (strip (chars s)) with
  | None => Raise ValueError
  | Some cs =>
      let '(neg, body) := split_sign cs in
      match span_digits body with
      | ((_ :: _) as ds, []) =>
          Ok (if neg then - digits_value ds else digits_value ds)
      | _ => Raise ValueError
      end
  end.

(** The exponent part of a float literal: [e] or [E], an optional sign and
    at least one digit, up to the end of the text. *)
Definition parse_exponent (cs : list ascii) : option Z :=
  match cs with
  | [] => Some 0
  | c :: cs' =>
      if (lower c =? "e")%char then
        let '(neg, body) := split_sign cs' in
        match span_digits body with
        | ((_ :: _) as ds, []) =>
            Some (if neg then - digits_value ds else digits_value ds)
        | _ => None
        end
      else None
  end.

(** The decimal [m * 10^e] as the nearest double. *)
Definition float_of_decimal (neg : bool) (m e : Z) : float :=
  match e with
  | Zneg k => of_ratio neg m (Pos.pow 10 k)
  | _ => of_ratio neg (m * 10 ^ e) 1
  end.

(** [float(s)] for a string: blanks around, an optional sign, then [inf],
    [infinity] or [nan] in any case, or a decimal literal with an optional
    fraction and exponent.  A literal beyond the range of binary64 becomes
    an infinity. *)
Definition float_of_string (s : string) : result float :=
  match drop_underscores None (strip (chars s)) with
  | None => Raise ValueError
  | Some cs =>
      let '(neg, body) := split_sign cs in
      let word := text (map lower body) in
      if (word =? "inf")%string || (word =? "infinity")%string
      then Ok (S754_infinity neg)
      else if (word =? "nan")%string then Ok S754_nan
      else
        let '(ip, rest) := span_digits body in
        let '(fp, rest') :=
          match rest with
          | "."%char :: r => span_digits r
          | _ => ([], rest)
          end in
        match (ip ++ fp)%list, parse_exponent rest' with
        | (_ :: _) as ds, Some e =>
            Ok (float_of_decimal neg (digits_value ds)
                  (e - Z.of_nat (List.length fp)))
        | _, _ => Raise ValueError
        end
  end.

(** ** Decimal output *)

Definition digit_char (d : Z) : ascii := ascii_of_nat (Z.to_nat d + 48).

Fixpoint digits_of_fuel (fuel : nat) (n : Z) (acc : list ascii) : list ascii :=
  match fuel with
  | O => acc
  | S fuel' =>
      if n <? 10 then digit_char n :: acc
      else digits_of_fuel fuel' (n / 10) (digit_char (n mod 10) :: acc)
  end.

(** The decimal digits of a natural number, without leading zeros. *)
Definition digits_of (n : Z) : list ascii :=
  digits_of_fuel (S (Z.to_nat (Z.log2 n))) n [].

(** [str(n)] for a Python int. *)
Definition str_of_int (n : Z) : string :=
  if n <? 0 then text ("-"%char :: digits_of (- n)) else text (digits_of n).

(** The digits of [n] padded with zeros on the left to [width] places, as
    the [%02d] and [%04d] conversions do. *)
Definition zero_pad (width : nat) (n : Z) : string :=
  let ds := digits_of n in
  text (repeat "0"%char (width - List.length ds) ++ ds)%list.

Fixpoint rstrip_zeros_rev (rev_ds : list ascii) : list ascii :=
  match rev_ds with
  | "0"%char :: ds => rstrip_zeros_rev ds
  | _ => rev_ds
  end.

Definition rstrip_zeros (ds : list ascii) : list ascii :=
  rev (rstrip_zeros_rev (rev ds)).

(** [sep.join(l)]. *)
Fixpoint join (sep : string) (l : list string) : string :=
  match l with
  | [] => ""
  | [s] => s
  | s :: l' => s ++ sep ++ join sep l'
  end.

End Text.

Export Text.

(** ** [repr] of a float

    CPython prints a float with the shortest string of decimal digits that
    reads back as the same double, in positional notation when the decimal
    point falls within the digits or close to them and in exponent notation
    otherwise. *)

Module Repr.

(** The least [j >= 0] with [q <= p * 10^j], by repeated multiplication. *)
Fixpoint scale_up (fuel : nat) (p q j : Z) : Z :=
  match fuel with
  | O => j
  | S fuel' => if q <=? p then j else scale_up fuel' (10 * p) q (j + 1)
  end.

(** The position [D] of the decimal point of the positive rational [p / q]:
    [10^(D-1) <= p / q < 10^D]. *)
Definition decimal_point (p : Z) (q : positive) : Z :=
  if Zpos q <=? p
  then Z.of_nat (List.length (digits_of (p / Zpos q)))
  else 1 - scale_up 400 p (Zpos q) 0.

(** [p / q * 10^sh] as a fraction. *)
Definition scaled (p : Z) (q : positive) (sh : Z) : Z * positive :=
  match sh with
  | Zneg n => (p, (q * Pos.pow 10 n)%positive)
  | _ => (p * 10 ^ sh, q)
  end.

(** The two integers around [p / q * 10^sh], the nearer one first. *)
Definition candidates (p : Z) (q : positive) (sh : Z) : list Z :=
  let '(a, b) := scaled p q sh in
  let lo := a / Zpos b in
  if round_half_even a b =? lo then [lo; lo + 1] else [lo + 1; lo].

(** Searches for the least number of digits [k], from [k] up to
    [k + fuel], for which some [k]-digit decimal [N * 10^(D-k)] reads back as
    [x]; at the end of the search the nearest decimal is taken. *)
Fixpoint shortest (fuel : nat) (x : float) (p : Z) (q : positive) (D k : Z)
  : Z * Z :=
  let cands := candidates p q (k - D) in
  match fuel with
  | O => (hd 0 cands, D - k)
  | S fuel' =>
      match find (fun N => feq (float_of_decimal false N (D - k)) x) cands with
      | Some N => (N, D - k)
      | None => shortest fuel' x p q D (k + 1)
      end
  end.

Definition zeros (n : Z) : list ascii := repeat "0"%char (Z.to_nat n).

(** The layout of the digits [ds] with the decimal point after the first
    [decpt] of them. *)
Definition layout (ds : list ascii) (decpt : Z) : list ascii :=
  let len := Z.of_nat (List.length ds) in
  if (-4 <? decpt) && (decpt <=? 16) then
    if decpt <=? 0 then (chars "0." ++ zeros (- decpt) ++ ds)%list
    else if len <=? decpt then (ds ++ zeros (decpt - len) ++ chars ".0")%list
    else (firstn (Z.to_nat decpt) ds ++ "."%char :: skipn (Z.to_nat decpt) ds)%list
  else
    let e := decpt - 1 in
    (firstn 1 ds
       ++ match skipn 1 ds with
          | [] => []
          | frac => "."%char :: frac
          end
       ++ "e"%char :: (if e <? 0 then "-"%char else "+"%char)
       :: chars (zero_pad 2 (Z.abs e)))%list.

(** [repr(x)], which is also [str(x)] and what an f-string prints. *)
Definition repr_float (x : float) : string :=
  match x with
  | S754_nan => "nan"
  | S754_infinity s => if s then "-inf" else "inf"
  | S754_zero s => if s then "-0.0" else "0.0"
  | S754_finite s m e =>
      let '(n, q) := to_ratio (S754_finite false m e) in
      let D := decimal_point n q in
      let '(N, e10) := shortest 16 (S754_finite false m e) n q D 1 in
      let ds := digits_of N in
      let body := layout (rstrip_zeros ds) (e10 + Z.of_nat (List.length ds)) in
      text (if s then "-"%char :: body else body)
  end.

End Repr.

Export Repr.

(** ** Python values and the builtins that weather.py calls *)

Module Builtins.

(** The values that reach the functions of weather.py: [None], ints, floats
    and strings. *)
Inductive pyval : Type :=
| PNone
| PInt (n : Z)
| PFloat (x : float)
| PStr (s : string).

(** [float(v)]. *)
Definition py_float (v : pyval) : result float :=
  match v with
  | PNone => Raise TypeError
  | PInt n => of_int n
  | PFloat x => Ok x
  | PStr s => float_of_string s
  end.

(** [int(v)] for a cell of a csv row, which is a string or [None]. *)
Definition py_int (v : option string) : result Z :=
  match v with
  | None => Raise TypeError
  | Some s => int_of_string s
  end.

(** [str(v)], which is what an f-string substitutes for [{v}]. *)
Definition py_str (v : pyval) : string :=
  match v with
  | PNone => "None"
  | PInt n => str_of_int n
  | PFloat x => repr_float x
  | PStr s => s
  end.

(** The loop that the builtins [min] and [max] share: the first element is
    the candidate and a later element replaces it when it compares strictly
    better. *)
Definition select {A : Type} (better : A -> A -> bool) (l : list A) (x : A)
  : A :=
  fold_left (fun cur item => if better item cur then item else cur) l x.

(** [min(l)] and [max(l)] on a list of floats: [item < cur] and
    [item > cur] decide the replacement.  An empty argument raises
    [ValueError]. *)
Definition py_min (l : list float) : result float :=
  match l with
  | [] => Raise ValueError
  | x :: l' => Ok (select flt l' x)
  end.

Definition py_max (l : list float) : result float :=
  match l with
  | [] => Raise ValueError
  | x :: l' => Ok (select fgt l' x)
  end.

(** [max] over a sequence of indices. *)
Definition py_max_index (l : list nat) : result nat :=
  match l with
  | [] => Raise ValueError
  | x :: l' => Ok (select (fun item cur => (cur <? item)%nat) l' x)
  end.

(** [enumerate(l)]. *)
Definition enumerate {A : Type} (l : list A) : list (nat * A) :=
  combine (seq 0 (List.length l)) l.

(** The tuples that [find_min] and [find_max] return: the empty tuple [()]
    or a pair [(value, index)]. *)
Inductive pytuple : Type :=
| Tuple0
| Tuple2 (value : float) (index : nat).

(** The assignment [a, b = t] of a tuple to two targets. *)
Definition unpack2 (t : pytuple) : result (float * nat) :=
  match t with
  | Tuple0 => Raise ValueError
  | Tuple2 v i => Ok (v, i)
  end.

(** [l[i]] for a list. *)
Definition getitem {A : Type} (l : list A) (i : nat) : result A :=
  match nth_error l i with
  | Some x => Ok x
  | None => Raise IndexError
  end.

End Builtins.

Export Builtins.

(** ** [statistics.mean] *)

Module Statistics.

(** The exact sum of finite floats as a fraction. *)
Definition exact_sum (data : list float) : Z * positive :=
  fold_left
    (fun acc x =>
       let '(a, b) := acc in
       let '(c, d) := to_ratio x in
       (a * Zpos d + c * Zpos b, (b * d)%positive))
    data (0, 1%positive).

(** [statistics.mean(data)] for a list of floats.  With only finite data
    the exact sum is divided by the count and the quotient is rounded once;
    otherwise the non-finite values alone are added as floats and the sum,
    an infinity or a NaN, is divided by the count. *)
Definition mean (data : list float) : result float :=
  match data with
  | [] => Raise StatisticsError
  | _ :: _ =>
      let n := Pos.of_nat (List.length data) in
      if forallb is_finite data then
        let '(p, q) := exact_sum data in
        Ok (of_Q p (q * n))
      else
        let special := filter (fun x => negb (is_finite x)) data in
        let total := fold_left fadd special (S754_zero false) in
        Ok (fdiv total (of_Q (Zpos n) 1))
  end.

End Statistics.

(** ** [datetime]: parsing of ISO 8601 text and [strftime] *)

Module Datetime.

Record datetime : Type := mk_datetime {
  year : Z;
  month : Z;
  day : Z;
  hour : Z;
  minute : Z;
  second : Z;
  microsecond : Z;
  (** The UTC offset in microseconds, when the text carries one. *)
  utcoffset : option Z
}.

Definition is_leap (y : Z) : bool :=
  (y mod 4 =? 0) && (negb (y mod 100 =? 0) || (y mod 400 =? 0)).

Definition days_in_month (y m : Z) : Z :=
  if m =? 2 then (if is_leap y then 29 else 28)
  else if (m =? 4) || (m =? 6) || (m =? 9) || (m =? 11) then 30
  else 31.

(** Number of days before January 1st of year [y]. *)
Definition days_before_year (y : Z) : Z :=
  let y' := y - 1 in
  y' * 365 + y' / 4 - y' / 100 + y' / 400.

(** Number of days in year [y] before the first day of month [m]. *)
Definition days_before_month (y m : Z) : Z :=
  nth (Z.to_nat m) [0; 0; 31; 59; 90; 120; 151; 181; 212; 243; 273; 304; 334] 0
  + (if (2 <? m) && is_leap y then 1 else 0).

(** The proleptic Gregorian ordinal: 1 for 0001-01-01. *)
Definition ymd_to_ord (y m d : Z) : Z :=
  days_before_year y + days_before_month y m + d.

(** [weekday()]: Monday is 0 and Sunday is 6. *)
Definition weekday (dt : datetime) : Z :=
  (ymd_to_ord (year dt) (month dt) (day dt) + 6) mod 7.

(** Exactly [n] decimal digits at the head of the text. *)
Definition fixed_digits (n : nat) (cs : list ascii) : option (Z * list ascii) :=
  let ds := firstn n cs in
  if (List.length ds =? n)%nat && forallb is_digit ds
  then Some (digits_value ds, skipn n cs)
  else None.

Definition expect (c : ascii) (cs : list ascii) : option (list ascii) :=
  match cs with
  | c' :: cs' => if (c =? c')%char then Some cs' else None
  | [] => None
  end.

(** [YYYY-MM-DD]. *)
Definition parse_date (cs : list ascii) : option (Z * Z * Z * list ascii) :=
  match fixed_digits 4 cs with
  | Some (y, cs1) =>
      match expect "-" cs1 with
      | Some cs2 =>
          match fixed_digits 2 cs2 with
          | Some (m, cs3) =>
              match expect "-" cs3 with
              | Some cs4 =>
                  match fixed_digits 2 cs4 with
                  | Some (d, cs5) => Some (y, m, d, cs5)
                  | None => None
                  end
              | None => None
              end
          | None => None
          end
      | None => None
      end
  | None => None
  end.

(** The fraction of a second: three or six digits, in microseconds. *)
Definition parse_fraction (cs : list ascii) : option (Z * list ascii) :=
  match fixed_digits 6 cs with
  | Some r => Some r
  | None =>
      match fixed_digits 3 cs with
      | Some (ms, rest) => Some (ms * 1000, rest)
      | None => None
      end
  end.

(** [HH[:MM[:SS[.fff[fff]]]]]: the fields and the text that follows. *)
Definition parse_hh_mm_ss_ff (cs : list ascii)
  : option (Z * Z * Z * Z * list ascii) :=
  match fixed_digits 2 cs with
  | None => None
  | Some (h, cs1) =>
      match cs1 with
      | ":"%char :: cs2 =>
          match fixed_digits 2 cs2 with
          | None => None
          | Some (mi, cs3) =>
              match cs3 with
              | ":"%char :: cs4 =>
                  match fixed_digits 2 cs4 with
                  | None => None
                  | Some (s, cs5) =>
                      match cs5 with
                      | "."%char :: cs6 =>
                          match parse_fraction cs6 with
                          | Some (us, cs7) => Some (h, mi, s, us, cs7)
                          | None => None
                          end
                      | _ => Some (h, mi, s, 0, cs5)
                      end
                  end
              | _ => Some (h, mi, 0, 0, cs3)
              end
          end
      | _ => Some (h, 0, 0, 0, cs1)
      end
  end.

(** The optional UTC offset [+HH:MM[:SS[.ffffff]]] that ends the text, in
    microseconds. *)
Definition parse_offset (cs : list ascii) : option (option Z) :=
  match cs with
  | [] => Some None
  | c :: cs' =>
      if (c =? "+")%char || (c =? "-")%char then
        match parse_hh_mm_ss_ff cs' with
        | Some (h, mi, s, us, []) =>
            let len := List.length cs' in
            if (len =? 5)%nat || (len =? 8)%nat || (len =? 15)%nat then
              let off := ((h * 60 + mi) * 60 + s) * 1000000 + us in
              Some (Some (if (c =? "-")%char then - off else off))
            else None
        | _ => None
        end
      else None
  end.

(** The checks of the [datetime] constructor. *)
Definition valid (dt : datetime) : bool :=
  (1 <=? year dt) && (year dt <=? 9999)
  && (1 <=? month dt) && (month dt <=? 12)
  && (1 <=? day dt) && (day dt <=? days_in_month (year dt) (month dt))
  && (hour dt <? 24) && (minute dt <? 60) && (second dt <? 60)
  && match utcoffset dt with
     | Some off => Z.abs off <? 24 * 3600 * 1000000
     | None => true
     end.

(** [datetime.fromisoformat(s)] for the texts that [datetime.isoformat]
    writes: [YYYY-MM-DD], optionally followed by one separator character,
    a time [HH[:MM[:SS[.fff[fff]]]]] and a UTC offset. *)
Definition fromisoformat_chars (cs : list ascii) : option datetime :=
  match parse_date cs with
  | None => None
  | Some (y, m, d, rest) =>
      match rest with
      | [] => Some (mk_datetime y m d 0 0 0 0 None)
      | _sep :: tstr =>
          match parse_hh_mm_ss_ff tstr with
          | None => None
          | Some (h, mi, s, us, rest') =>
              match parse_offset rest' with
              | Some off => Some (mk_datetime y m d h mi s us off)
              | None => None
              end
          end
      end
  end.

Definition fromisoformat (v : pyval) : result datetime :=
  match v with
  | PStr s =>
      match fromisoformat_chars (chars s) with
      | Some dt => if valid dt then Ok dt else Raise ValueError
      | None => Raise ValueError
      end
  | _ => Raise TypeError
  end.

(** The part of the process locale that [strftime] reads: the category
    [LC_TIME] with its full day names (indexed from Monday) and month names
    (indexed from 1). *)
Record lc_time : Type := mk_lc_time {
  day_name : Z -> string;
  month_name : Z -> string
}.

(** The [C] locale, the one a Python process starts with for [LC_TIME]. *)
Definition C_locale : lc_time := {|
  day_name := fun d =>
    nth (Z.to_nat d)
      ["Monday"; "Tuesday"; "Wednesday"; "Thursday"; "Friday"; "Saturday";
       "Sunday"] "";
  month_name := fun m =>
    nth (Z.to_nat m)
      [""; "January"; "February"; "March"; "April"; "May"; "June"; "July";
       "August"; "September"; "October"; "November"; "December"] ""
|}.




(** One conversion specification of [strftime]. *)
Definition directive (lc : lc_time) (dt : datetime) (c : ascii) : string :=
  match c with
  | "A"%char => day_name lc (weekday dt)
  | "B"%char => month_name lc (month dt)
  | "d"%char => zero_pad 2 (day dt)
  | "m"%char => zero_pad 2 (month dt)
  | "Y"%char => zero_pad 4 (year dt)
  | "H"%char => zero_pad 2 (hour dt)
  | "M"%char => zero_pad 2 (minute dt)
  | "S"%char => zero_pad 2 (second dt)
  | "%"%char => "%"
  | _ => String "%" (String c "")
  end.

(** [dt.strftime(format)]: ordinary characters are copied and each [%x] is
    replaced by its conversion under the locale [lc]. *)
Fixpoint strftime_chars (lc : lc_time) (dt : datetime) (format : list ascii)
  : string :=
  match format with
  | [] => ""
  | "%"%char :: c :: rest => directive lc dt c ++ strftime_chars lc dt rest
  | c :: rest => String c (strftime_chars lc dt rest)
  end.

Definition strftime (lc : lc_time) (dt : datetime) (format : string) : string :=
  strftime_chars lc dt (chars format).

End Datetime.

Export Datetime.

(** ** [csv.DictReader] *)

Module Csv.

(** The dictionary that [DictReader] builds for one row, as the list of its
    insertions; a cell is [None] where the row is shorter than the header.
    (The surplus cells of a row longer than the header are stored under the
    key [None], which no lookup by a column name reaches; they are left
    out.) *)
Definition dict : Type := list (string * option string).

(** [d[key]]: the value inserted last under [key], or a [KeyError]. *)
Definition dict_get (d : dict) (key : string) : result (option string) :=
  match find (fun kv => (fst kv =? key)%string) (rev d) with
  | Some kv => Ok (snd kv)
  | None => Raise KeyError
  end.

(** [dict(zip(fieldnames, row))], and [None] for the fields that the row
    does not reach. *)
Definition row_dict (fieldnames row : list string) : dict :=
  (combine fieldnames (map Some row)
   ++ map (fun key => (key, None)) (skipn (List.length row) fieldnames))%list.

Definition is_blank (row : list string) : bool :=
  match row with
  | [] => true
  | _ :: _ => false
  end.

(** Iteration over [csv.DictReader(f)], given the rows that [csv.reader]
    yields for the lines of [f] (a blank line yields the empty row): the
    first row names the fields, blank rows are skipped and every other row
    becomes a dictionary. *)
Definition DictReader (lines : list (list string)) : list dict :=
  match lines with
  | [] => []
  | fieldnames :: rows =>
      map (row_dict fieldnames) (filter (fun row => negb (is_blank row)) rows)
  end.

End Csv.

Export Csv.

(** ** The functions of weather.py *)

Module Weather.

Definition nl : string := String (ascii_of_nat 10) "".

(** The degree sign (two bytes in UTF-8) followed by [C]. *)
Definition DEGREE_SYMBOL : string :=
  String (ascii_of_nat 194) (String (ascii_of_nat 176) "C").

Definition format_temperature (temp : pyval) : string :=
  py_str temp ++ DEGREE_SYMBOL.

(** [convert_date] reads the process locale through [strftime]; it is the
    parameter [LC_TIME]. *)
Definition convert_date (LC_TIME : lc_time) (iso_string : pyval)
  : result string :=
  iso_date <- fromisoformat iso_string ;;
  let formatted_date := strftime LC_TIME iso_date "%A %d %B %Y" in
  Ok formatted_date.

Definition f32 : float := of_Q 32 1.
Definition f5 : float := of_Q 5 1.
Definition f9 : float := of_Q 9 1.

Definition convert_f_to_c (temp_in_fahrenheit : pyval) : result float :=
  x <- py_float temp_in_fahrenheit ;;
  let temp_in_celsius := round1 (fdiv (fmul (fsub x f32) f5) f9) in
  Ok temp_in_celsius.

Definition calculate_mean (weather_data : list pyval) : result float :=
  weather_data_float <- comprehension py_float weather_data ;;
  Statistics.mean weather_data_float.

(** A day of a series is the list [[date, min, max]]. *)
Definition day_record : Type := list pyval.

(** The rows are those that [csv.reader] yields for the opened file. *)
Definition load_data_from_csv (csv_lines : list (list string))
  : result (list day_record) :=
  comprehension
    (fun data_row =>
       date <- dict_get data_row "date" ;;
       min_cell <- dict_get data_row "min" ;;
       min_temp <- py_int min_cell ;;
       max_cell <- dict_get data_row "max" ;;
       max_temp <- py_int max_cell ;;
       Ok [match date with Some s => PStr s | None => PNone end;
           PInt min_temp; PInt max_temp])
    (DictReader csv_lines).

(** The indices at which [value] occurs in [l]:
    [index for index, item in enumerate(l) if item == value]. *)
Definition occurrences (l : list float) (value : float) : list nat :=
  map fst (filter (fun entry => feq (snd entry) value) (enumerate l)).

Definition find_min (weather_data : list pyval) : result pytuple :=
  weather_data_float <- comprehension py_float weather_data ;;
  if (List.length weather_data_float =? 0)%nat then Ok Tuple0
  else
    min_value <- py_min weather_data_float ;;
    min_value_index <- py_max_index (occurrences weather_data_float min_value) ;;
    Ok (Tuple2 min_value min_value_index).

Definition find_max (weather_data : list pyval) : result pytuple :=
  weather_data_float <- comprehension py_float weather_data ;;
  if (List.length weather_data_float =? 0)%nat then Ok Tuple0
  else
    max_value <- py_max weather_data_float ;;
    max_value_index <- py_max_index (occurrences weather_data_float max_value) ;;
    Ok (Tuple2 max_value max_value_index).

(** A [for] loop over [l] whose body updates the state [s] or raises. *)
Fixpoint for_each {S A : Type} (body : S -> A -> result S) (l : list A) (s : S)
  : result S :=
  match l with
  | [] => Ok s
  | x :: l' => s' <- body s x ;; for_each body l' s'
  end.

Definition generate_summary (LC_TIME : lc_time) (weather_data : list day_record)
  : result string :=
  '(min_temps, max_temps) <-
    for_each
      (fun temps day =>
         low <- getitem day 1 ;;
         high <- getitem day 2 ;;
         Ok (fst temps ++ [low], snd temps ++ [high])%list)
      weather_data ([], []) ;;
  t_max <- find_max max_temps ;;
  '(max_temp_value, max_value_index) <- unpack2 t_max ;;
  max_day <- getitem weather_data max_value_index ;;
  max_date <- getitem max_day 0 ;;
  max_temp_formatted_date <- convert_date LC_TIME max_date ;;
  mean_max_temp <- calculate_mean max_temps ;;
  t_min <- find_min min_temps ;;
  '(min_temp_value, min_value_index) <- unpack2 t_min ;;
  min_day <- getitem weather_data min_value_index ;;
  min_date <- getitem min_day 0 ;;
  min_temp_formatted_date <- convert_date LC_TIME min_date ;;
  mean_min_temp <- calculate_mean min_temps ;;
  min_c <- convert_f_to_c (PFloat min_temp_value) ;;
  max_c <- convert_f_to_c (PFloat max_temp_value) ;;
  mean_min_c <- convert_f_to_c (PFloat mean_min_temp) ;;
  mean_max_c <- convert_f_to_c (PFloat mean_max_temp) ;;
  let summary_string :=
    str_of_int (Z.of_nat (List.length weather_data)) ++ " Day Overview" ++ nl
    ++ "  The lowest temperature will be "
    ++ format_temperature (PFloat min_c)
    ++ ", and will occur on " ++ min_temp_formatted_date ++ "." ++ nl
    ++ "  The highest temperature will be "
    ++ format_temperature (PFloat max_c)
    ++ ", and will occur on " ++ max_temp_formatted_date ++ "." ++ nl
    ++ "  The average low this week is "
    ++ format_temperature (PFloat mean_min_c) ++ "." ++ nl
    ++ "  The average high this week is "
    ++ format_temperature (PFloat mean_max_c) ++ "." ++ nl in
  Ok summary_string.

(** The text that [generate_daily_summary] appends for one day. *)
Definition daily_block (LC_TIME : lc_time) (day : day_record) : result string :=
  date <- getitem day 0 ;;
  formatted_date <- convert_date LC_TIME date ;;
  low <- getitem day 1 ;;
  low_c <- convert_f_to_c low ;;
  high <- getitem day 2 ;;
  high_c <- convert_f_to_c high ;;
  Ok ("---- " ++ formatted_date ++ " ----" ++ nl
      ++ "  Minimum Temperature: " ++ format_temperature (PFloat low_c) ++ nl
      ++ "  Maximum Temperature: " ++ format_temperature (PFloat high_c) ++ nl).

Definition generate_daily_summary (LC_TIME : lc_time)
  (weather_data : list day_record) : result string :=
  daily_summary <-
    for_each
      (fun daily_summary day =>
         block <- daily_block LC_TIME day ;;
         Ok (daily_summary ++ [block])%list)
      weather_data [] ;;
  let summary_string := join nl daily_summary ++ nl in
  Ok summary_string.

End Weather.

Export Weather.

(** ** Vocabulary of the properties *)

Module Props.

(** A total preorder on the floats other than NaN: the class (negative
    infinity, negative, zero, positive, positive infinity), then the
    exponent, then the mantissa, the last two negated for negative values. *)
Definition key (x : float) : Z * Z * Z :=
  match x with
  | S754_nan => (0, 0, 0)
  | S754_zero _ => (0, 0, 0)
  | S754_infinity s => (if s then -2 else 2, 0, 0)
  | S754_finite s m e => if s then (-1, - e, Zneg m) else (1, e, Zpos m)
  end.

Definition key_compare (a b : Z * Z * Z) : comparison :=
  let '(c1, e1, m1) := a in
  let '(c2, e2, m2) := b in
  match c1 ?= c2 with
  | Eq => match e1 ?= e2 with
          | Eq => m1 ?= m2
          | r => r
          end
  | r => r
  end.

Definition no_nan (l : list float) : Prop :=
  Forall (fun x => is_nan x = false) l.

(** [m] is an element of [l] that no element is below. *)
Definition is_minimum (l : list float) (m : float) : Prop :=
  In m l /\ forall x, In x l -> fle m x = true.

(** [m] is an element of [l] that no element is above. *)
Definition is_maximum (l : list float) (m : float) : Prop :=
  In m l /\ forall x, In x l -> fle x m = true.

(** [i] is the last position of [l] that holds a value equal to [v]. *)
Definition last_occurrence (l : list float) (v : float) (i : nat) : Prop :=
  (exists x, nth_error l i = Some x /\ feq x v = true)
  /\ forall j x, (i < j)%nat -> nth_error l j = Some x -> feq x v = false.


(** The Celsius value of an integer Fahrenheit temperature [v] in exact
    arithmetic: [5 * (v - 32) / 9] rounded to the nearest tenth (ties to the
    even tenth), then the double nearest to that decimal. *)
Definition celsius_exact (v : Z) : float :=
  let p := 5 * (v - 32) in
  of_ratio (p <? 0) (round_half_even (10 * Z.abs p) 9) 10.

(** Equality of the representations of two floats. *)
Definition float_same (x y : float) : bool :=
  match x, y with
  | S754_zero s1, S754_zero s2 => Bool.eqb s1 s2
  | S754_infinity s1, S754_infinity s2 => Bool.eqb s1 s2
  | S754_nan, S754_nan => true
  | S754_finite s1 m1 e1, S754_finite s2 m2 e2 =>
      Bool.eqb s1 s2 && (m1 =? m2)%positive && (e1 =? e2)
  | _, _ => false
  end.


(** The record that [load_data_from_csv] builds from one row. *)
Definition row_record (fieldnames row : list string) : result day_record :=
  let data_row := row_dict fieldnames row in
  date <- dict_get data_row "date" ;;
  min_cell <- dict_get data_row "min" ;;
  min_temp <- py_int min_cell ;;
  max_cell <- dict_get data_row "max" ;;
  max_temp <- py_int max_cell ;;
  Ok [match date with Some s => PStr s | None => PNone end;
      PInt min_temp; PInt max_temp].


Definition not_blank (row : list string) : bool := negb (is_blank row).






(** The calendar day that follows [y]-[m]-[d]. *)
Definition next_day (y m d : Z) : Z * Z * Z :=
  if d <? days_in_month y m then (y, m, d + 1)
  else if m <? 12 then (y, m + 1, 1)
  else (y + 1, 1, 1).


(** Whether [convert_f_to_c] returns the exactly rounded value on [v]. *)
Definition celsius_agrees (v : Z) : bool :=
  match convert_f_to_c (PInt v) with
  | Ok x => float_same x (celsius_exact v)
  | Raise _ => false
  end.

(** The float of an integer, where [float(n)] does not overflow. *)
Definition int_float (n : Z) : float := binary_normalize prec emax n 0 false.

(** Integer temperatures are considered up to this magnitude. *)
Definition int_bound : Z := 10000.

Definition in_bound (n : Z) : Prop := - int_bound <= n <= int_bound.

(** [float(n)] is [int_float n] and lies strictly below [float(n + 1)]. *)
Definition adjacent_ok (n : Z) : bool :=
  flt (int_float n) (int_float (n + 1))
  && match of_int n with
     | Ok x => float_same x (int_float n)
     | Raise _ => false
     end.

(** The integers [lo, lo + 1, ..., lo + n - 1]. *)
Fixpoint Z_range (lo : Z) (n : nat) : list Z :=
  match n with
  | O => []
  | S n' => lo :: Z_range (lo + 1) n'
  end.

(** Every block followed by one newline: as each block ends its last line
    itself, this puts one blank line after each block. *)
Definition blocks_layout (blocks : list string) : string :=
  fold_right (fun block rest => block ++ nl ++ rest) "" blocks.

(** The three lines of a day. *)
Definition day_template (formatted_date : string) (low_c high_c : float)
  : string :=
  "---- " ++ formatted_date ++ " ----" ++ nl
  ++ "  Minimum Temperature: " ++ repr_float low_c ++ DEGREE_SYMBOL ++ nl
  ++ "  Maximum Temperature: " ++ repr_float high_c ++ DEGREE_SYMBOL ++ nl.


(** The day record [[date, min, max]]. *)
Definition record (row : pyval * pyval * pyval) : day_record :=
  let '(date, low, high) := row in [date; low; high].

Definition date_of (row : pyval * pyval * pyval) : pyval := fst (fst row).
Definition low_of (row : pyval * pyval * pyval) : pyval := snd (fst row).
Definition high_of (row : pyval * pyval * pyval) : pyval := snd row.

End Props.

Export Props.

Module MoreProps.

(** [convert_f_to_c(n)] lies strictly below [convert_f_to_c(n + 1)]. *)
Definition celsius_step_ok (n : Z) : bool :=
  match convert_f_to_c (PInt n), convert_f_to_c (PInt (n + 1)) with
  | Ok x, Ok y => flt x y
  | _, _ => false
  end.



(** The shape of a loaded record: a date that is a string or [None], and
    two ints. *)
Definition loaded_shape (rec : day_record) : Prop :=
  exists date min_temp max_temp,
    rec = [date; PInt min_temp; PInt max_temp]
    /\ (date = PNone \/ exists s, date = PStr s).


End MoreProps.

Export MoreProps.

(** * Properties *)

(** ** The error monad *)

Lemma bind_Ok {A B : Type} (a : A) (k : A -> result B) :
  Py.bind (Ok a) k = k a.
Proof. reflexivity. Qed.

Lemma bind_Ok_inv {A B : Type} (c : result A) (k : A -> result B) (b : B) :
  Py.bind c k = Ok b -> exists a, c = Ok a /\ k a = Ok b.
Proof.
  destruct c as [a | e]; simpl; intros H.
  - exists a; auto.
  - discriminate.
Qed.

Lemma comprehension_length {A B : Type} (f : A -> result B) (l : list A)
  (ys : list B) :
  comprehension f l = Ok ys -> List.length ys = List.length l.
Proof.
  revert ys; induction l as [| x l IH]; simpl; intros ys H.
  - injection H as <-; reflexivity.
  - destruct (f x) as [y | e]; simpl in H; [| discriminate].
    destruct (comprehension f l) as [ys' | e]; simpl in H; [| discriminate].
    injection H as <-; simpl; f_equal; auto.
Qed.

(** A comprehension succeeds exactly when its function succeeds on every
    element, and then it is the map of the results. *)
Lemma comprehension_Ok_iff {A B : Type} (f : A -> result B) (l : list A)
  (ys : list B) :
  comprehension f l = Ok ys <-> Forall2 (fun x y => f x = Ok y) l ys.
Proof.
  revert ys; induction l as [| x l IH]; simpl; intros ys; split; intros H.
  - injection H as <-; constructor.
  - inversion H; reflexivity.
  - destruct (f x) as [y | e] eqn:Hx; simpl in H; [| discriminate].
    destruct (comprehension f l) as [ys' | e] eqn:Hl; simpl in H;
      [| discriminate].
    injection H as <-; constructor; [assumption | apply IH; reflexivity].
  - inversion H as [| x' y l' ys' Hx Hl]; subst.
    rewrite Hx; simpl.
    apply IH in Hl; rewrite Hl; reflexivity.
Qed.


(** ** The order of floats *)

Lemma SFcompare_key (x y : float) :
  is_nan x = false -> is_nan y = false ->
  SFcompare x y = Some (key_compare (key x) (key y)).
Proof.
  destruct x as [[] | [] | | [] mx ex]; destruct y as [[] | [] | | [] my ey];
    simpl; intros Hx Hy; try discriminate; try reflexivity.
  - rewrite Z.compare_opp.
    destruct (Z.compare_spec ex ey) as [-> | H | H].
    + rewrite Z.compare_refl; reflexivity.
    + apply Z.compare_lt_iff in H.
      rewrite Z.compare_antisym, H; reflexivity.
    + apply Z.compare_gt_iff in H.
      rewrite Z.compare_antisym, H; reflexivity.
Qed.

Lemma key_compare_refl (a : Z * Z * Z) : key_compare a a = Eq.
Proof.
  destruct a as [[c e] m]; simpl; rewrite !Z.compare_refl; reflexivity.
Qed.

Lemma key_compare_antisym (a b : Z * Z * Z) :
  key_compare b a = CompOpp (key_compare a b).
Proof.
  destruct a as [[c1 e1] m1], b as [[c2 e2] m2]; simpl.
  rewrite (Z.compare_antisym c1 c2), (Z.compare_antisym e1 e2),
    (Z.compare_antisym m1 m2).
  destruct (c1 ?= c2), (e1 ?= e2), (m1 ?= m2); reflexivity.
Qed.

Lemma key_compare_Eq (a b : Z * Z * Z) : key_compare a b = Eq -> a = b.
Proof.
  destruct a as [[c1 e1] m1], b as [[c2 e2] m2]; simpl.
  destruct (Z.compare_spec c1 c2); try discriminate.
  destruct (Z.compare_spec e1 e2); try discriminate.
  destruct (Z.compare_spec m1 m2); try discriminate.
  intros _; congruence.
Qed.

Lemma key_compare_Lt_trans (a b c : Z * Z * Z) :
  key_compare a b = Lt -> key_compare b c = Lt -> key_compare a c = Lt.
Proof.
  destruct a as [[c1 e1] m1], b as [[c2 e2] m2], c as [[c3 e3] m3]; simpl.
  destruct (Z.compare_spec c1 c2), (Z.compare_spec c2 c3),
    (Z.compare_spec c1 c3); try discriminate; try lia; intros; try reflexivity;
    destruct (Z.compare_spec e1 e2), (Z.compare_spec e2 e3),
      (Z.compare_spec e1 e3); try discriminate; try lia; try reflexivity;
    destruct (Z.compare_spec m1 m2), (Z.compare_spec m2 m3),
      (Z.compare_spec m1 m3); try discriminate; try lia; reflexivity.
Qed.

Lemma flt_not_nan (x y : float) :
  flt x y = true -> is_nan x = false /\ is_nan y = false.
Proof.
  unfold flt, SFltb.
  destruct x as [[] | [] | | [] mx ex]; destruct y as [[] | [] | | [] my ey];
    simpl; intros H; try discriminate; auto.
Qed.

Lemma flt_key (x y : float) :
  is_nan x = false -> is_nan y = false ->
  flt x y = true <-> key_compare (key x) (key y) = Lt.
Proof.
  intros Hx Hy; unfold flt, SFltb; rewrite (SFcompare_key x y Hx Hy).
  destruct (key_compare (key x) (key y)); split; congruence.
Qed.

Lemma fle_key (x y : float) :
  is_nan x = false -> is_nan y = false ->
  fle x y = true <-> key_compare (key x) (key y) <> Gt.
Proof.
  intros Hx Hy; unfold fle, SFleb; rewrite (SFcompare_key x y Hx Hy).
  destruct (key_compare (key x) (key y)); split; congruence.
Qed.

Lemma feq_key (x y : float) :
  is_nan x = false -> is_nan y = false ->
  feq x y = true <-> key (x) = key y.
Proof.
  intros Hx Hy; unfold feq, SFeqb; rewrite (SFcompare_key x y Hx Hy); split.
  - destruct (key_compare (key x) (key y)) eqn:E; try discriminate.
    intros _; apply key_compare_Eq; assumption.
  - intros ->; rewrite key_compare_refl; reflexivity.
Qed.

Lemma flt_irrefl (x : float) : flt x x = false.
Proof.
  destruct (flt x x) eqn:E; [| reflexivity].
  destruct (flt_not_nan _ _ E) as [Hx _].
  apply (flt_key x x Hx Hx) in E.
  rewrite key_compare_refl in E; discriminate.
Qed.

Lemma flt_trans (x y z : float) :
  flt x y = true -> flt y z = true -> flt x z = true.
Proof.
  intros Hxy Hyz.
  destruct (flt_not_nan _ _ Hxy) as [Hx Hy].
  destruct (flt_not_nan _ _ Hyz) as [_ Hz].
  apply (flt_key x z Hx Hz).
  apply (key_compare_Lt_trans _ (key y)); [apply flt_key | apply flt_key];
    assumption.
Qed.

(** Without NaN the order is total: [x <= y] unless [y < x]. *)
Lemma fle_iff_not_flt (x y : float) :
  is_nan x = false -> is_nan y = false ->
  fle x y = true <-> flt y x = false.
Proof.
  intros Hx Hy.
  rewrite (fle_key x y Hx Hy).
  assert (H := flt_key y x Hy Hx).
  rewrite (key_compare_antisym (key x) (key y)) in H.
  destruct (key_compare (key x) (key y)); simpl in H; destruct (flt y x);
    split; intros; try congruence;
    destruct H as [H1 H2];
    first [discriminate (H1 eq_refl) | discriminate (H2 eq_refl)].
Qed.

Lemma feq_refl (x : float) : is_nan x = false -> feq x x = true.
Proof. intros Hx; apply feq_key; auto. Qed.

(** ** Selection of an extreme element by a strict order

    [min] and [max] keep a candidate and replace it by a later element that
    is strictly better. *)

Section Select.

Variable A : Type.
Variable better : A -> A -> bool.
Hypothesis better_irrefl : forall x, better x x = false.
Hypothesis better_trans :
  forall x y z, better x y = true -> better y z = true -> better x z = true.

Lemma better_asym (x y : A) : better x y = true -> better y x = false.
Proof.
  intros H; destruct (better y x) eqn:E; [| reflexivity].
  rewrite <- (better_irrefl x); symmetry; eapply better_trans; eassumption.
Qed.

Lemma select_inv (l : list A) (cur : A) :
  (select better l cur = cur \/ In (select better l cur) l /\ better (select better l cur) cur = true)
  /\ forall y, In y l -> better y (select better l cur) = false.
Proof.
  revert cur; induction l as [| item l IH]; intros cur; simpl.
  - split; [left; reflexivity | intros y []].
  - unfold select; simpl; fold (select better l (if better item cur then item else cur)).
    destruct (better item cur) eqn:E.
    + destruct (IH item) as [[Hm | [Hin Hb]] Hall].
      * rewrite Hm; split; [right; split; auto |].
        intros y [<- | Hy]; [apply better_irrefl | rewrite <- Hm; auto].
      * split; [right; split; [right; assumption | eapply better_trans; eassumption] |].
        intros y [<- | Hy]; [apply better_asym; assumption | auto].
    + destruct (IH cur) as [[Hm | [Hin Hb]] Hall].
      * rewrite Hm; split; [left; reflexivity |].
        intros y [<- | Hy]; [assumption | rewrite <- Hm; auto].
      * split; [right; split; [right; assumption | assumption] |].
        intros y [<- | Hy]; [| auto].
        destruct (better item (select better l cur)) eqn:E'; [| reflexivity].
        rewrite <- E; symmetry; eapply better_trans; eassumption.
Qed.

(** The selected element belongs to the list and none is better. *)
Lemma select_spec (l : list A) (x : A) :
  In (select better l x) (x :: l)
  /\ forall y, In y (x :: l) -> better y (select better l x) = false.
Proof.
  destruct (select_inv l x) as [[Hm | [Hin Hb]] Hall]; split.
  - left; auto.
  - intros y [<- | Hy]; [rewrite Hm; apply better_irrefl | auto].
  - right; assumption.
  - intros y [<- | Hy]; [apply better_asym; assumption | auto].
Qed.

End Select.

(** ** [min], [max] and the index of the last occurrence *)

Lemma py_min_spec (l : list float) :
  l <> [] -> no_nan l -> exists m, py_min l = Ok m /\ is_minimum l m.
Proof.
  destruct l as [| x l']; [congruence |]; intros _ Hnan.
  exists (select flt l' x); split; [reflexivity |].
  destruct (select_spec float flt flt_irrefl flt_trans l' x) as [Hin Hall].
  split; [assumption |].
  intros y Hy.
  unfold no_nan in Hnan; rewrite Forall_forall in Hnan.
  apply fle_iff_not_flt; auto.
Qed.

Lemma py_max_spec (l : list float) :
  l <> [] -> no_nan l -> exists m, py_max l = Ok m /\ is_maximum l m.
Proof.
  destruct l as [| x l']; [congruence |]; intros _ Hnan.
  exists (select fgt l' x); split; [reflexivity |].
  assert (Hirr : forall u, fgt u u = false) by (intros u; apply flt_irrefl).
  assert (Htr : forall u v w, fgt u v = true -> fgt v w = true -> fgt u w = true)
    by (unfold fgt; intros u v w H1 H2; eapply flt_trans; eassumption).
  destruct (select_spec float fgt Hirr Htr l' x) as [Hin Hall].
  split; [assumption |].
  intros y Hy.
  unfold no_nan in Hnan; rewrite Forall_forall in Hnan.
  apply fle_iff_not_flt; auto.
  apply (Hall y Hy).
Qed.

(** [max] over indices returns an element that bounds all the others. *)
Lemma py_max_index_spec (l : list nat) :
  l <> [] ->
  exists i, py_max_index l = Ok i /\ In i l /\ forall j, In j l -> (j <= i)%nat.
Proof.
  destruct l as [| x l']; [congruence |]; intros _.
  pose (above := fun item cur : nat => (cur <? item)%nat).
  exists (select above l' x); split; [reflexivity |].
  assert (Hirr : forall a, above a a = false)
    by (intros a; apply Nat.ltb_irrefl).
  assert (Htr : forall a b c,
             above a b = true -> above b c = true -> above a c = true).
  { unfold above; intros a b c H1 H2.
    apply Nat.ltb_lt in H1, H2; apply Nat.ltb_lt; lia. }
  destruct (select_spec nat above Hirr Htr l' x) as [Hin Hall].
  split; [assumption |].
  intros j Hj; specialize (Hall j Hj).
  unfold above in Hall; apply Nat.ltb_ge in Hall; assumption.
Qed.

Lemma in_combine_seq {A : Type} (l : list A) (k i : nat) (x : A) :
  In (i, x) (combine (seq k (List.length l)) l)
  <-> (k <= i)%nat /\ nth_error l (i - k) = Some x.
Proof.
  revert k; induction l as [| a l IH]; intros k; simpl.
  - split; [intros [] | intros [_ H]].
    destruct (i - k)%nat; discriminate.
  - rewrite IH; split.
    + intros [H | [Hle Hn]].
      * injection H as <- <-; rewrite Nat.sub_diag; auto.
      * split; [lia |].
        replace (i - k)%nat with (S (i - S k)) by lia; assumption.
    + intros [Hle Hn].
      destruct (i - k)%nat as [| n] eqn:E.
      * left; injection Hn as <-; f_equal; lia.
      * right; split; [lia |].
        replace (i - S k)%nat with n by lia; assumption.
Qed.

(** The indices collected by [occurrences] are the positions that hold a
    value equal to [v]. *)
Lemma in_occurrences (l : list float) (v : float) (i : nat) :
  In i (occurrences l v)
  <-> exists x, nth_error l i = Some x /\ feq x v = true.
Proof.
  unfold occurrences, enumerate; rewrite in_map_iff; split.
  - intros [[i' x] [Hi Hin]]; simpl in Hi; subst i'.
    apply filter_In in Hin; destruct Hin as [Hin Heq]; simpl in Heq.
    apply in_combine_seq in Hin; destruct Hin as [_ Hn].
    rewrite Nat.sub_0_r in Hn; exists x; auto.
  - intros [x [Hn Heq]]; exists (i, x); split; [reflexivity |].
    apply filter_In; split; [| assumption].
    apply in_combine_seq; split; [lia |].
    rewrite Nat.sub_0_r; assumption.
Qed.

(** The greatest collected index is the last occurrence. *)
Lemma last_index_spec (l : list float) (v : float) :
  In v l -> is_nan v = false ->
  exists i, py_max_index (occurrences l v) = Ok i /\ last_occurrence l v i.
Proof.
  intros Hin Hv.
  assert (Hne : occurrences l v <> []).
  { apply In_nth_error in Hin; destruct Hin as [n Hn].
    assert (H : In n (occurrences l v))
      by (apply in_occurrences; exists v; split; [assumption | apply feq_refl; assumption]).
    intros E; rewrite E in H; destruct H. }
  destruct (py_max_index_spec _ Hne) as [i [Hi [Hmem Hmax]]].
  exists i; split; [assumption |]; split.
  - apply in_occurrences; assumption.
  - intros j x Hlt Hn.
    destruct (feq x v) eqn:E; [| reflexivity].
    assert (H : In j (occurrences l v))
      by (apply in_occurrences; exists x; auto).
    apply Hmax in H; lia.
Qed.

Lemma is_minimum_not_nan (l : list float) (m : float) :
  no_nan l -> is_minimum l m -> is_nan m = false.
Proof.
  unfold no_nan; rewrite Forall_forall; intros H [Hin _]; auto.
Qed.

Lemma find_min_spec (weather_data : list pyval) (l : list float) :
  comprehension py_float weather_data = Ok l -> l <> [] -> no_nan l ->
  exists m i,
    find_min weather_data = Ok (Tuple2 m i)
    /\ is_minimum l m /\ last_occurrence l m i.
Proof.
  intros Hl Hne Hnan.
  destruct (py_min_spec l Hne Hnan) as [m [Hm Hmin]].
  destruct (last_index_spec l m (proj1 Hmin) (is_minimum_not_nan l m Hnan Hmin))
    as [i [Hi Hlast]].
  exists m, i; split; [| auto].
  unfold find_min; rewrite Hl; simpl.
  destruct l as [| x l']; [congruence |].
  simpl List.length; simpl Nat.eqb; cbv iota.
  rewrite Hm; simpl; rewrite Hi; reflexivity.
Qed.

Lemma find_max_spec (weather_data : list pyval) (l : list float) :
  comprehension py_float weather_data = Ok l -> l <> [] -> no_nan l ->
  exists m i,
    find_max weather_data = Ok (Tuple2 m i)
    /\ is_maximum l m /\ last_occurrence l m i.
Proof.
  intros Hl Hne Hnan.
  destruct (py_max_spec l Hne Hnan) as [m [Hm Hmax]].
  assert (Hm_nan : is_nan m = false).
  { unfold no_nan in Hnan; rewrite Forall_forall in Hnan.
    apply Hnan, (proj1 Hmax). }
  destruct (last_index_spec l m (proj1 Hmax) Hm_nan) as [i [Hi Hlast]].
  exists m, i; split; [| auto].
  unfold find_max; rewrite Hl; simpl.
  destruct l as [| x l']; [congruence |].
  simpl List.length; simpl Nat.eqb; cbv iota.
  rewrite Hm; simpl; rewrite Hi; reflexivity.
Qed.

Lemma float_same_eq (x y : float) : float_same x y = true -> x = y.
Proof.
  destruct x as [s1 | s1 | | s1 m1 e1]; destruct y as [s2 | s2 | | s2 m2 e2];
    simpl; intros H; try discriminate; try reflexivity.
  - apply Bool.eqb_prop in H; congruence.
  - apply Bool.eqb_prop in H; congruence.
  - apply andb_prop in H; destruct H as [H He].
    apply andb_prop in H; destruct H as [Hs Hm].
    apply Bool.eqb_prop in Hs; apply Pos.eqb_eq in Hm; apply Z.eqb_eq in He.
    congruence.
Qed.

Lemma in_Z_range (lo : Z) (n : nat) (z : Z) :
  lo <= z < lo + Z.of_nat n -> In z (Z_range lo n).
Proof.
  revert lo; induction n as [| n IH]; intros lo Hz; [lia |].
  simpl; destruct (Z.eq_dec lo z) as [E | E]; [left; assumption |].
  right; apply IH; lia.
Qed.

Lemma forallb_Z_range (p : Z -> bool) (lo : Z) (n : nat) :
  forallb p (Z_range lo n) = true ->
  forall z, lo <= z < lo + Z.of_nat n -> p z = true.
Proof.
  intros H z Hz.
  rewrite forallb_forall in H; apply H, in_Z_range; assumption.
Qed.

(** ** Integer temperatures

    On the integers up to [int_bound] in magnitude the coercion to float is
    exact and keeps the order, so the float minimum and maximum are those of
    the integers. *)

Lemma adjacent_check :
  forallb adjacent_ok (Z_range (- int_bound) (Z.to_nat (2 * int_bound + 1)))
  = true.
Proof. vm_compute; reflexivity. Qed.

Lemma adjacent_in_bound (n : Z) :
  in_bound n ->
  flt (int_float n) (int_float (n + 1)) = true /\ of_int n = Ok (int_float n).
Proof.
  intros Hn.
  assert (H : adjacent_ok n = true).
  { apply (forallb_Z_range _ _ _ adjacent_check).
    unfold in_bound, int_bound in *; lia. }
  unfold adjacent_ok in H; apply andb_prop in H; destruct H as [H1 H2].
  split; [assumption |].
  destruct (of_int n) as [x | e]; [| discriminate].
  apply float_same_eq in H2; congruence.
Qed.

Lemma int_float_lt_steps (k : nat) (a : Z) :
  - int_bound <= a -> a + Z.of_nat k <= int_bound ->
  flt (int_float a) (int_float (a + Z.of_nat (S k))) = true.
Proof.
  intros Ha; induction k as [| k IH]; intros Hb.
  - apply adjacent_in_bound; unfold in_bound; lia.
  - apply (flt_trans _ (int_float (a + Z.of_nat (S k)))).
    + apply IH; lia.
    + replace (a + Z.of_nat (S (S k))) with (a + Z.of_nat (S k) + 1) by lia.
      apply adjacent_in_bound; unfold in_bound; lia.
Qed.

(** The coercion is strictly increasing. *)
Lemma int_float_lt (a b : Z) :
  in_bound a -> in_bound b -> a < b -> flt (int_float a) (int_float b) = true.
Proof.
  unfold in_bound; intros Ha Hb Hab.
  replace b with (a + Z.of_nat (S (Z.to_nat (b - a - 1)))) by lia.
  apply int_float_lt_steps; lia.
Qed.

Lemma int_float_not_nan (a : Z) : in_bound a -> is_nan (int_float a) = false.
Proof.
  intros Ha.
  destruct (adjacent_in_bound a Ha) as [H _].
  apply (flt_not_nan _ _ H).
Qed.

Lemma flt_not_feq (x y : float) : flt x y = true -> feq x y = false.
Proof.
  intros H.
  destruct (flt_not_nan _ _ H) as [Hx Hy].
  apply (flt_key x y Hx Hy) in H.
  destruct (feq x y) eqn:E; [| reflexivity].
  apply (feq_key x y Hx Hy) in E.
  rewrite E, key_compare_refl in H; discriminate.
Qed.

Lemma feq_sym (x y : float) : feq x y = feq y x.
Proof.
  destruct (is_nan x) eqn:Hx; [destruct x; try discriminate; destruct y as [[] | [] | | [] ? ?]; reflexivity |].
  destruct (is_nan y) eqn:Hy; [destruct y; try discriminate; destruct x as [[] | [] | | [] ? ?]; reflexivity |].
  unfold feq, SFeqb.
  rewrite (SFcompare_key x y Hx Hy), (SFcompare_key y x Hy Hx).
  rewrite (key_compare_antisym (key x) (key y)).
  destruct (key_compare (key x) (key y)); reflexivity.
Qed.

(** Equal floats come from equal integers. *)
Lemma int_float_feq (a b : Z) :
  in_bound a -> in_bound b ->
  feq (int_float a) (int_float b) = true -> a = b.
Proof.
  intros Ha Hb H.
  destruct (Z.lt_trichotomy a b) as [Hlt | [Heq | Hgt]]; [| assumption |].
  - rewrite (flt_not_feq _ _ (int_float_lt a b Ha Hb Hlt)) in H; discriminate.
  - rewrite feq_sym, (flt_not_feq _ _ (int_float_lt b a Hb Ha Hgt)) in H.
    discriminate.
Qed.

(** The order of the floats is the order of the integers. *)
Lemma int_float_fle (a b : Z) :
  in_bound a -> in_bound b ->
  fle (int_float a) (int_float b) = true -> a <= b.
Proof.
  intros Ha Hb H.
  destruct (Z.le_gt_cases a b) as [Hle | Hgt]; [assumption |].
  apply fle_iff_not_flt in H; try (apply int_float_not_nan; assumption).
  rewrite (int_float_lt b a Hb Ha) in H; [discriminate | lia].
Qed.

Lemma coerce_ints (zs : list Z) :
  Forall in_bound zs ->
  comprehension py_float (map PInt zs) = Ok (map int_float zs)
  /\ no_nan (map int_float zs).
Proof.
  induction 1 as [| z zs Hz _ [IH1 IH2]]; simpl.
  - split; [reflexivity | constructor].
  - destruct (adjacent_in_bound z Hz) as [_ Hof].
    rewrite Hof, bind_Ok, IH1, bind_Ok; split; [reflexivity |].
    constructor; [apply int_float_not_nan; assumption | assumption].
Qed.

Lemma nth_error_map_int_float (zs : list Z) (i : nat) (x : float) :
  nth_error (map int_float zs) i = Some x ->
  exists z, nth_error zs i = Some z /\ x = int_float z.
Proof.
  rewrite nth_error_map.
  destruct (nth_error zs i) as [z |]; simpl; intros H; [| discriminate].
  injection H as <-; exists z; auto.
Qed.

(** The last occurrence among the floats is the last occurrence among the
    integers. *)
Lemma last_occurrence_int (zs : list Z) (z0 : Z) (i : nat) :
  Forall in_bound zs -> In z0 zs ->
  last_occurrence (map int_float zs) (int_float z0) i ->
  nth_error zs i = Some z0
  /\ forall j z, (i < j)%nat -> nth_error zs j = Some z -> z <> z0.
Proof.
  intros Hall Hz0 [[x [Hx Heq]] Hlater].
  rewrite Forall_forall in Hall.
  destruct (nth_error_map_int_float _ _ _ Hx) as [zi [Hzi ->]].
  split.
  - rewrite Hzi; f_equal.
    apply int_float_feq; auto.
    apply Hall, (nth_error_In _ _ Hzi).
  - intros j z Hj Hz ->.
    assert (H : nth_error (map int_float zs) j = Some (int_float z0))
      by (rewrite nth_error_map, Hz; reflexivity).
    apply (Hlater j _ Hj) in H.
    rewrite feq_refl in H; [discriminate |].
    apply int_float_not_nan; auto.
Qed.

Lemma find_min_int (zs : list Z) :
  zs <> [] -> Forall in_bound zs ->
  exists z0 i,
    find_min (map PInt zs) = Ok (Tuple2 (int_float z0) i)
    /\ nth_error zs i = Some z0
    /\ (forall z, In z zs -> z0 <= z)
    /\ (forall j z, (i < j)%nat -> nth_error zs j = Some z -> z <> z0).
Proof.
  intros Hne Hall.
  destruct (coerce_ints zs Hall) as [Hl Hnan].
  assert (Hne' : map int_float zs <> [])
    by (destruct zs; [congruence | discriminate]).
  destruct (find_min_spec _ _ Hl Hne' Hnan) as [m [i [Hf [[Hin Hlow] Hlast]]]].
  apply in_map_iff in Hin; destruct Hin as [z0 [<- Hz0]].
  destruct (last_occurrence_int zs z0 i Hall Hz0 Hlast) as [Hi Hlater].
  exists z0, i; repeat split; try assumption.
  intros z Hz.
  rewrite Forall_forall in Hall.
  apply int_float_fle; auto.
  apply Hlow, in_map; assumption.
Qed.

Lemma find_max_int (zs : list Z) :
  zs <> [] -> Forall in_bound zs ->
  exists z0 i,
    find_max (map PInt zs) = Ok (Tuple2 (int_float z0) i)
    /\ nth_error zs i = Some z0
    /\ (forall z, In z zs -> z <= z0)
    /\ (forall j z, (i < j)%nat -> nth_error zs j = Some z -> z <> z0).
Proof.
  intros Hne Hall.
  destruct (coerce_ints zs Hall) as [Hl Hnan].
  assert (Hne' : map int_float zs <> [])
    by (destruct zs; [congruence | discriminate]).
  destruct (find_max_spec _ _ Hl Hne' Hnan) as [m [i [Hf [[Hin Hup] Hlast]]]].
  apply in_map_iff in Hin; destruct Hin as [z0 [<- Hz0]].
  destruct (last_occurrence_int zs z0 i Hall Hz0 Hlast) as [Hi Hlater].
  exists z0, i; repeat split; try assumption.
  intros z Hz.
  rewrite Forall_forall in Hall.
  apply int_float_fle; auto.
  apply Hup, in_map; assumption.
Qed.

(** ** Claims about [find_min], [find_max] and [calculate_mean] *)

(** C1.  For every non-empty list of numbers (values that coerce to floats
    other than NaN), [find_min] returns the pair of the minimum value and
    the last position at which it occurs, and [find_max] the pair of the
    maximum value and the last position at which it occurs.  For integers
    up to [int_bound] in magnitude the returned value is the float of the
    least (greatest) integer of the list and the position is the last one
    that holds that integer.  In particular [find_min([5,2,2,9]) = (2, 2)]
    and [find_max([5,2,9,9]) = (9, 3)], with positions counted from 0. *)
Theorem find_min_find_max_last_occurrence :
  (forall (weather_data : list pyval) (l : list float),
      comprehension py_float weather_data = Ok l -> l <> [] -> no_nan l ->
      (exists m i,
          find_min weather_data = Ok (Tuple2 m i)
          /\ is_minimum l m /\ last_occurrence l m i)
      /\ (exists m i,
             find_max weather_data = Ok (Tuple2 m i)
             /\ is_maximum l m /\ last_occurrence l m i))
  /\ (forall zs : list Z,
         zs <> [] -> Forall in_bound zs ->
         (exists z0 i,
             find_min (map PInt zs) = Ok (Tuple2 (int_float z0) i)
             /\ nth_error zs i = Some z0
             /\ (forall z, In z zs -> z0 <= z)
             /\ (forall j z,
                    (i < j)%nat -> nth_error zs j = Some z -> z <> z0))
         /\ (exists z0 i,
                find_max (map PInt zs) = Ok (Tuple2 (int_float z0) i)
                /\ nth_error zs i = Some z0
                /\ (forall z, In z zs -> z <= z0)
                /\ (forall j z,
                       (i < j)%nat -> nth_error zs j = Some z -> z <> z0)))
  /\ find_min [PInt 5; PInt 2; PInt 2; PInt 9] = Ok (Tuple2 (int_float 2) 2)
  /\ find_max [PInt 5; PInt 2; PInt 9; PInt 9] = Ok (Tuple2 (int_float 9) 3)
  /\ py_str (PFloat (int_float 2)) = "2.0"
  /\ py_str (PFloat (int_float 9)) = "9.0".
Proof.
  split.
  { intros weather_data l Hl Hne Hnan; split.
    - apply find_min_spec; assumption.
    - apply find_max_spec; assumption. }
  split.
  { intros zs Hne Hall; split.
    - apply find_min_int; assumption.
    - apply find_max_int; assumption. }
  repeat split; vm_compute; reflexivity.
Qed.

Lemma find_min_find_max_last_occurrence_witness :
  (exists m i,
      find_min [PInt 5; PInt 2; PInt 2; PInt 9] = Ok (Tuple2 m i)
      /\ is_minimum [of_Q 5 1; of_Q 2 1; of_Q 2 1; of_Q 9 1] m
      /\ last_occurrence [of_Q 5 1; of_Q 2 1; of_Q 2 1; of_Q 9 1] m i)
  /\ (exists m i,
         find_max [PInt 5; PInt 2; PInt 2; PInt 9] = Ok (Tuple2 m i)
         /\ is_maximum [of_Q 5 1; of_Q 2 1; of_Q 2 1; of_Q 9 1] m
         /\ last_occurrence [of_Q 5 1; of_Q 2 1; of_Q 2 1; of_Q 9 1] m i).
Proof.
  apply (proj1 find_min_find_max_last_occurrence
           [PInt 5; PInt 2; PInt 2; PInt 9]
           [of_Q 5 1; of_Q 2 1; of_Q 2 1; of_Q 9 1]).
  - vm_compute; reflexivity.
  - discriminate.
  - repeat constructor.
Defined.

Lemma comprehension_nil_inv {A B : Type} (f : A -> result B) (l : list A) :
  comprehension f l = Ok [] -> l = [].
Proof.
  intros H; apply comprehension_length in H.
  destruct l; [reflexivity | discriminate].
Qed.

Lemma py_float_not_StatisticsError (v : pyval) :
  py_float v <> Raise StatisticsError.
Proof.
  destruct v as [| n | x | s]; simpl; try discriminate.
  - unfold of_int; destruct (binary_normalize prec emax n 0 false);
      discriminate.
  - unfold float_of_string.
    destruct (drop_underscores None (strip (chars s))); [| discriminate].
    destruct (split_sign l) as [neg body].
    destruct ((text (map lower body) =? "inf")%string
              || (text (map lower body) =? "infinity")%string);
      [discriminate |].
    destruct (text (map lower body) =? "nan")%string; [discriminate |].
    destruct (span_digits body) as [ip rest].
    destruct (match rest with
              | "."%char :: r => span_digits r
              | _ => ([], rest)
              end) as [fp rest'].
    destruct (ip ++ fp)%list; [discriminate |].
    destruct (parse_exponent rest'); discriminate.
Qed.

Lemma comprehension_py_float_not_StatisticsError (l : list pyval) :
  comprehension py_float l <> Raise StatisticsError.
Proof.
  induction l as [| v l IH]; simpl; [discriminate |].
  destruct (py_float v) as [x | e] eqn:E; simpl.
  - destruct (comprehension py_float l) as [ys | e']; simpl;
      [discriminate | congruence].
  - intros H; apply (py_float_not_StatisticsError v); congruence.
Qed.

(** C3.  On the empty sequence [calculate_mean] raises the error of an
    empty input ([StatisticsError]), whereas [find_min] and [find_max] do
    not fail and return the empty tuple; the two outcomes differ, and each
    arises for the empty sequence only. *)
Theorem empty_input_error_versus_sentinel :
  calculate_mean [] = Raise StatisticsError
  /\ find_min [] = Ok Tuple0
  /\ find_max [] = Ok Tuple0
  /\ (forall v i, Tuple0 <> Tuple2 v i)
  /\ is_ok (find_min []) = true
  /\ is_ok (find_max []) = true
  /\ is_ok (calculate_mean []) = false
  /\ (forall weather_data,
         calculate_mean weather_data = Raise StatisticsError
         <-> weather_data = [])
  /\ (forall weather_data, find_min weather_data = Ok Tuple0 <-> weather_data = [])
  /\ (forall weather_data, find_max weather_data = Ok Tuple0 <-> weather_data = []).
Proof.
  repeat split; try reflexivity; try discriminate.
  - unfold calculate_mean; intros H.
    destruct (comprehension py_float weather_data) as [l | e] eqn:E; simpl in H.
    + destruct l as [| x l]; [apply (comprehension_nil_inv _ _ E) |].
      unfold Statistics.mean in H.
      destruct (forallb is_finite (x :: l)); [| discriminate].
      destruct (Statistics.exact_sum (x :: l)); discriminate.
    + exfalso; apply (comprehension_py_float_not_StatisticsError weather_data).
      congruence.
  - intros ->; reflexivity.
  - unfold find_min; intros H.
    destruct (comprehension py_float weather_data) as [l | e] eqn:E; simpl in H;
      [| discriminate].
    destruct l; [apply (comprehension_nil_inv _ _ E) |].
    simpl in H.
    destruct (py_max_index _) in H; discriminate.
  - intros ->; reflexivity.
  - unfold find_max; intros H.
    destruct (comprehension py_float weather_data) as [l | e] eqn:E; simpl in H;
      [| discriminate].
    destruct l; [apply (comprehension_nil_inv _ _ E) |].
    simpl in H.
    destruct (py_max_index _) in H; discriminate.
  - intros ->; reflexivity.
Qed.








(** ** Claims about [generate_summary] and [generate_daily_summary] *)

(** C4.  [generate_summary] applied to the empty series fails: [find_max]
    yields the empty tuple, unpacking it into a value and an index raises
    [ValueError], and no summary string is returned. *)
Theorem generate_summary_empty_fails :
  forall LC_TIME : lc_time,
    find_max [] = Ok Tuple0
    /\ find_min [] = Ok Tuple0
    /\ unpack2 Tuple0 = Raise ValueError
    /\ generate_summary LC_TIME [] = Raise ValueError
    /\ (forall s, generate_summary LC_TIME [] <> Ok s).
Proof.
  intros LC_TIME; repeat split; discriminate.
Qed.

Lemma string_app_assoc (s1 s2 s3 : string) :
  ((s1 ++ s2) ++ s3 = s1 ++ (s2 ++ s3))%string.
Proof.
  induction s1 as [| c s1 IH]; simpl; [reflexivity | rewrite IH; reflexivity].
Qed.


(** A loop that appends one result per element is a comprehension. *)
Lemma for_each_append {A B : Type} (f : A -> result B) (l : list A)
  (acc : list B) :
  for_each (fun acc x => b <- f x ;; Ok (acc ++ [b])%list) l acc
  = (ys <- comprehension f l ;; Ok (acc ++ ys)%list).
Proof.
  revert acc; induction l as [| x l IH]; intros acc; simpl.
  - rewrite app_nil_r; reflexivity.
  - destruct (f x) as [b | e]; simpl; [| reflexivity].
    rewrite IH.
    destruct (comprehension f l) as [ys | e]; simpl; [| reflexivity].
    rewrite <- app_assoc; reflexivity.
Qed.

Lemma generate_daily_summary_unfold (LC_TIME : lc_time)
  (weather_data : list day_record) :
  generate_daily_summary LC_TIME weather_data
  = (blocks <- comprehension (daily_block LC_TIME) weather_data ;;
     Ok (join nl blocks ++ nl)).
Proof.
  unfold generate_daily_summary.
  rewrite (for_each_append (daily_block LC_TIME) weather_data []).
  destruct (comprehension (daily_block LC_TIME) weather_data); reflexivity.
Qed.

(** Joining with a newline and adding a final newline puts one newline
    after every block, provided there is a block. *)
Lemma join_blocks_layout (blocks : list string) :
  blocks <> [] -> join nl blocks ++ nl = blocks_layout blocks.
Proof.
  induction blocks as [| b blocks IH]; [congruence |]; intros _.
  destruct blocks as [| b' blocks].
  - reflexivity.
  - change (join nl (b :: b' :: blocks)) with (b ++ nl ++ join nl (b' :: blocks)).
    rewrite !string_app_assoc, IH by discriminate.
    reflexivity.
Qed.

Lemma getitem_Ok {A : Type} (l : list A) (i : nat) (x : A) :
  getitem l i = Ok x <-> nth_error l i = Some x.
Proof.
  unfold getitem; destruct (nth_error l i); split; congruence.
Qed.

Lemma daily_block_shape (LC_TIME : lc_time) (day : day_record) (b : string) :
  daily_block LC_TIME day = Ok b ->
  exists date low high formatted_date low_c high_c,
    nth_error day 0 = Some date /\ nth_error day 1 = Some low
    /\ nth_error day 2 = Some high
    /\ convert_date LC_TIME date = Ok formatted_date
    /\ convert_f_to_c low = Ok low_c /\ convert_f_to_c high = Ok high_c
    /\ b = day_template formatted_date low_c high_c.
Proof.
  unfold daily_block; intros H.
  apply bind_Ok_inv in H; destruct H as [date [Hdate H]].
  apply bind_Ok_inv in H; destruct H as [fd [Hfd H]].
  apply bind_Ok_inv in H; destruct H as [low [Hlow H]].
  apply bind_Ok_inv in H; destruct H as [lc [Hlc H]].
  apply bind_Ok_inv in H; destruct H as [high [Hhigh H]].
  apply bind_Ok_inv in H; destruct H as [hc [Hhc H]].
  injection H as <-.
  apply getitem_Ok in Hdate, Hlow, Hhigh.
  exists date, low, high, fd, lc, hc; repeat split; try assumption.
  unfold day_template, format_temperature, py_str.
  rewrite !string_app_assoc; reflexivity.
Qed.

(** C5 (as amended).  When every record of the series renders,
    [generate_daily_summary] emits one block per record in order, each
    block being the three lines of its day; for a non-empty series the
    blocks are each followed by exactly one newline (one blank line between
    blocks, one trailing newline after the last block, nothing before the
    first), a single-day series yields its block and one newline, and the
    empty series yields the string that consists of one newline. *)
Theorem generate_daily_summary_layout :
  forall (LC_TIME : lc_time) (weather_data : list day_record)
         (blocks : list string),
    Forall2 (fun day block => daily_block LC_TIME day = Ok block)
      weather_data blocks ->
    List.length blocks = List.length weather_data
    /\ Forall2
         (fun day block =>
            exists date low high formatted_date low_c high_c,
              nth_error day 0 = Some date /\ nth_error day 1 = Some low
              /\ nth_error day 2 = Some high
              /\ convert_date LC_TIME date = Ok formatted_date
              /\ convert_f_to_c low = Ok low_c
              /\ convert_f_to_c high = Ok high_c
              /\ block = day_template formatted_date low_c high_c)
         weather_data blocks
    /\ (weather_data <> [] ->
        generate_daily_summary LC_TIME weather_data = Ok (blocks_layout blocks))
    /\ (forall block, blocks = [block] ->
        generate_daily_summary LC_TIME weather_data = Ok (block ++ nl))
    /\ (weather_data = [] ->
        generate_daily_summary LC_TIME weather_data = Ok nl).
Proof.
  intros LC_TIME weather_data blocks H.
  assert (Hc : comprehension (daily_block LC_TIME) weather_data = Ok blocks)
    by (apply comprehension_Ok_iff; assumption).
  split; [apply (comprehension_length _ _ _ Hc) |].
  split.
  { clear Hc; induction H as [| day block wd bs Hd _ IH]; constructor.
    - apply daily_block_shape; assumption.
    - assumption. }
  rewrite generate_daily_summary_unfold, Hc, bind_Ok.
  split; [| split].
  - intros Hne; rewrite join_blocks_layout; [reflexivity |].
    intros ->; inversion H; congruence.
  - intros block ->; reflexivity.
  - intros ->; inversion H; reflexivity.
Qed.

Lemma generate_daily_summary_layout_witness :
  generate_daily_summary C_locale [[PStr "2021-07-06"; PInt 60; PInt 80]]
  = Ok (day_template "Tuesday 06 July 2021" (of_Q 156 10) (of_Q 267 10) ++ nl).
Proof.
  refine (proj1 (proj2 (proj2 (proj2
    (generate_daily_summary_layout C_locale
       [[PStr "2021-07-06"; PInt 60; PInt 80]]
       [day_template "Tuesday 06 July 2021" (of_Q 156 10) (of_Q 267 10)]
       _)))) _ eq_refl).
  repeat constructor.
Defined.

(** C5 (as stated) fails on the empty series: the result is one newline,
    not the empty string. *)
Lemma generate_daily_summary_empty_is_newline :
  generate_daily_summary C_locale [] = Ok nl
  /\ generate_daily_summary C_locale [] <> Ok "".
Proof.
  split; [reflexivity | discriminate].
Qed.

(** The first loop of [generate_summary] collects the two columns. *)
Lemma collect_columns (rows : list (pyval * pyval * pyval))
  (lows highs : list pyval) :
  for_each
    (fun temps day =>
       low <- getitem day 1 ;;
       high <- getitem day 2 ;;
       Ok (fst temps ++ [low], snd temps ++ [high])%list)
    (map record rows) (lows, highs)
  = Ok ((lows ++ map low_of rows)%list, (highs ++ map high_of rows)%list).
Proof.
  revert lows highs; induction rows as [| [[d lo] hi] rows IH];
    intros lows highs; simpl.
  - rewrite !app_nil_r; reflexivity.
  - rewrite IH, <- !app_assoc; reflexivity.
Qed.







(** ** Claims about [convert_f_to_c] *)

(** [round_half_even a b] is an integer nearest to [a / b], and the even one
    of the two when [a / b] lies halfway. *)
Lemma round_half_even_spec (a : Z) (b : positive) :
  0 <= a ->
  let n := round_half_even a b in
  0 <= n
  /\ Z.abs (2 * a - 2 * n * Zpos b) <= Zpos b
  /\ (Z.abs (2 * a - 2 * n * Zpos b) = Zpos b -> Z.even n = true).
Proof.
  intros Ha; unfold round_half_even.
  assert (Hb : 0 < Zpos b) by lia.
  pose proof (Z.div_mod a (Zpos b) ltac:(lia)) as Hdiv.
  pose proof (Z.mod_pos_bound a (Zpos b) Hb) as Hmod.
  pose proof (Z.div_pos a (Zpos b) Ha Hb) as Hq.
  set (q := a / Zpos b) in *; set (r := a mod Zpos b) in *.
  destruct (Z.compare_spec (2 * r) (Zpos b)) as [E | E | E].
  - destruct (Z.even q) eqn:Eq.
    + repeat split; try lia; auto.
    + repeat split; try lia.
      intros _; rewrite Z.even_add, Eq; reflexivity.
  - repeat split; try lia.
  - repeat split; try lia.
Qed.

(** The fraction of [to_ratio] is the exact value [m * 2^e] of the float. *)
Lemma to_ratio_exact (s : bool) (m : positive) (e : Z) :
  let '(p, d) := to_ratio (S754_finite s m e) in
  (p <? 0) = s
  /\ Z.abs p * 2 ^ Z.max 0 (- e) = Zpos m * 2 ^ Z.max 0 e * Zpos d.
Proof.
  unfold to_ratio; destruct e as [| k | k].
  - destruct s; simpl; split; reflexivity || lia.
  - assert (H : 0 < 2 ^ Zpos k) by (apply Z.pow_pos_nonneg; lia).
    rewrite Z.abs_mul, (Z.abs_eq (2 ^ Zpos k)) by lia.
    replace (Z.max 0 (- Zpos k)) with 0 by lia.
    replace (Z.max 0 (Zpos k)) with (Zpos k) by lia.
    destruct s; split; try (simpl Z.abs; lia).
    + apply Z.ltb_lt; nia.
    + apply Z.ltb_ge; nia.
  - rewrite Pos2Z.inj_pow.
    replace (Z.max 0 (- Zneg k)) with (Zpos k) by lia.
    replace (Z.max 0 (Zneg k)) with 0 by lia.
    destruct s; split; try reflexivity; simpl Z.abs; lia.
Qed.

(** [round(x, 1)] of a finite float is the double nearest to [n / 10], with
    the sign of [x], where [n] is the integer nearest to ten times the exact
    magnitude of [x], the even one in a tie. *)
Lemma round1_spec (s : bool) (m : positive) (e : Z) :
  let '(p, d) := to_ratio (S754_finite s m e) in
  exists n,
    round1 (S754_finite s m e) = of_ratio s n 10
    /\ 0 <= n
    /\ Z.abs (2 * (10 * Z.abs p) - 2 * n * Zpos d) <= Zpos d
    /\ (Z.abs (2 * (10 * Z.abs p) - 2 * n * Zpos d) = Zpos d ->
        Z.even n = true).
Proof.
  unfold round1.
  destruct (to_ratio (S754_finite s m e)) as [p d].
  exists (round_half_even (10 * Z.abs p) d); split; [reflexivity |].
  apply round_half_even_spec; lia.
Qed.

(** C6.  For every numeric input [v], [convert_f_to_c] returns
    [(v - 32) * 5 / 9], computed on floats, rounded to one decimal place
    with Python's rounding (to the nearest tenth of the exact binary value,
    ties to even); an input that is not numeric raises its coercion error.
    For the integers from -1000 to 1000 the result is the exactly rounded
    value of [5 * (v - 32) / 9].  In particular [convert_f_to_c(32) = 0.0],
    [convert_f_to_c(212) = 100.0] and [convert_f_to_c(98.6) = 37.0]. *)
Theorem convert_f_to_c_rounds_to_one_decimal :
  (forall (v : pyval) (x : float),
      py_float v = Ok x ->
      convert_f_to_c v = Ok (round1 (fdiv (fmul (fsub x f32) f5) f9)))
  /\ (forall (v : pyval) (e : exn),
         py_float v = Raise e -> convert_f_to_c v = Raise e)
  /\ (forall (s : bool) (m : positive) (e : Z),
         let '(p, d) := to_ratio (S754_finite s m e) in
         exists n,
           round1 (S754_finite s m e) = of_ratio s n 10
           /\ 0 <= n
           /\ Z.abs (2 * (10 * Z.abs p) - 2 * n * Zpos d) <= Zpos d
           /\ (Z.abs (2 * (10 * Z.abs p) - 2 * n * Zpos d) = Zpos d ->
               Z.even n = true))
  /\ (forall x, is_finite x = false -> round1 x = x)
  /\ (forall v : Z,
         -1000 <= v <= 1000 -> convert_f_to_c (PInt v) = Ok (celsius_exact v))
  /\ convert_f_to_c (PInt 32) = Ok (S754_zero false)
  /\ convert_f_to_c (PInt 212) = Ok (of_Q 100 1)
  /\ convert_f_to_c (PFloat (of_Q 986 10)) = Ok (of_Q 37 1)
  /\ convert_f_to_c (PStr "98.6") = Ok (of_Q 37 1)
  /\ repr_float (S754_zero false) = "0.0"
  /\ repr_float (of_Q 100 1) = "100.0"
  /\ repr_float (of_Q 37 1) = "37.0".
Proof.
  split; [intros v x H; unfold convert_f_to_c; rewrite H; reflexivity |].
  split; [intros v e H; unfold convert_f_to_c; rewrite H; reflexivity |].
  split; [exact round1_spec |].
  split; [intros [s | s | | s m e] H; try reflexivity; discriminate |].
  split.
  { intros v Hv.
    assert (H : celsius_agrees v = true).
    { apply (forallb_Z_range celsius_agrees (-1000) (Z.to_nat 2001));
        [vm_compute; reflexivity | lia]. }
    unfold celsius_agrees in H.
    destruct (convert_f_to_c (PInt v)) as [x | e]; [| discriminate].
    apply float_same_eq in H; congruence. }
  repeat split; vm_compute; reflexivity.
Qed.

Lemma convert_f_to_c_rounds_to_one_decimal_witness :
  convert_f_to_c (PStr "98.6")
  = Ok (round1 (fdiv (fmul (fsub (of_Q 986 10) f32) f5) f9)).
Proof.
  apply (proj1 convert_f_to_c_rounds_to_one_decimal (PStr "98.6") (of_Q 986 10)).
  vm_compute; reflexivity.
Defined.

(** ** Claims about [convert_date] *)


Lemma days_in_month_le_31 (y m : Z) : days_in_month y m <= 31.
Proof.
  unfold days_in_month.
  destruct (m =? 2); [destruct (is_leap y); lia |].
  destruct ((m =? 4) || (m =? 6) || (m =? 9) || (m =? 11)); lia.
Qed.

Lemma valid_bounds (dt : datetime) :
  valid dt = true ->
  1 <= year dt <= 9999 /\ 1 <= month dt <= 12 /\ 1 <= day dt <= 31.
Proof.
  unfold valid; intros H.
  repeat (apply andb_prop in H; destruct H as [H ?]).
  pose proof (days_in_month_le_31 (year dt) (month dt)).
  repeat match goal with
         | H : (_ <=? _) = true |- _ => apply Z.leb_le in H
         end.
  lia.
Qed.










(** ** Determinism and the process locale *)










(** ** Claims about [load_data_from_csv] *)








Lemma comprehension_map {A B C : Type} (g : A -> B) (f : B -> result C)
  (l : list A) :
  comprehension f (map g l) = comprehension (fun x => f (g x)) l.
Proof.
  induction l as [| x l IH]; simpl; [| rewrite IH]; reflexivity.
Qed.


Lemma Forall2_In_left {A B : Type} (R : A -> B -> Prop) (l : list A)
  (l' : list B) (x : A) :
  Forall2 R l l' -> In x l -> exists y, In y l' /\ R x y.
Proof.
  induction 1 as [| a b l l' Hab _ IH]; simpl; intros Hx; [destruct Hx |].
  destruct Hx as [<- | Hx].
  - exists b; auto.
  - destruct (IH Hx) as [y [Hy Hr]]; exists y; auto.
Qed.


Lemma load_data_from_csv_unfold (fieldnames : list string)
  (rows : list (list string)) :
  load_data_from_csv (fieldnames :: rows)
  = comprehension (row_record fieldnames) (filter not_blank rows).
Proof.
  unfold load_data_from_csv, DictReader.
  rewrite comprehension_map; reflexivity.
Qed.

Section WellFormedHeader.

Variables (fieldnames : list string) (i_date i_min i_max : nat).
Hypothesis distinct_names : NoDup fieldnames.
Hypothesis date_column : nth_error fieldnames i_date = Some "date".
Hypothesis min_column : nth_error fieldnames i_min = Some "min".
Hypothesis max_column : nth_error fieldnames i_max = Some "max".





End WellFormedHeader.






(** ** Further properties *)

Lemma select_from_nan (l : list float) : select flt l S754_nan = S754_nan.
Proof.
  unfold select; induction l as [| x l IH]; simpl; [reflexivity |].
  replace (flt x S754_nan) with false; [assumption |].
  destruct x as [[] | [] | | [] m e]; reflexivity.
Qed.

Lemma select_gt_from_nan (l : list float) : select fgt l S754_nan = S754_nan.
Proof.
  unfold select; induction l as [| x l IH]; simpl; [reflexivity |].
  assumption.
Qed.

Lemma occurrences_of_nan (l : list float) : occurrences l S754_nan = [].
Proof.
  unfold occurrences, enumerate.
  generalize 0%nat; induction l as [| x l IH]; intros k; simpl;
    [reflexivity |].
  replace (feq x S754_nan) with false; [apply IH |].
  destruct x as [[] | [] | | [] m e]; reflexivity.
Qed.

(** A list whose first element is NaN has no minimum and no maximum that
    equals one of its elements: [min] and [max] return the NaN, no position
    holds a value equal to it, and [find_min] and [find_max] raise
    [ValueError] from [max] over no indices. *)
Theorem find_min_find_max_nan_first :
  forall (weather_data : list pyval) (l : list float),
    comprehension py_float weather_data = Ok (S754_nan :: l) ->
    find_min weather_data = Raise ValueError
    /\ find_max weather_data = Raise ValueError.
Proof.
  intros weather_data l H; unfold find_min, find_max.
  rewrite H, !bind_Ok; simpl.
  rewrite select_from_nan, select_gt_from_nan.
  rewrite (occurrences_of_nan (S754_nan :: l)); split; reflexivity.
Qed.

Lemma find_min_find_max_nan_first_witness :
  find_min [PStr "nan"; PInt 1] = Raise ValueError
  /\ find_max [PStr "nan"; PInt 1] = Raise ValueError.
Proof.
  apply (find_min_find_max_nan_first [PStr "nan"; PInt 1] [int_float 1]).
  vm_compute; reflexivity.
Defined.

Lemma days_before_month_succ (y m : Z) :
  1 <= m <= 11 ->
  days_before_month y (m + 1) = days_before_month y m + days_in_month y m.
Proof.
  intros Hm.
  assert (E : m = 1 \/ m = 2 \/ m = 3 \/ m = 4 \/ m = 5 \/ m = 6 \/ m = 7
              \/ m = 8 \/ m = 9 \/ m = 10 \/ m = 11) by lia.
  unfold days_before_month, days_in_month.
  repeat (destruct E as [-> | E]; [simpl; destruct (is_leap y); reflexivity |]).
  subst m; simpl; destruct (is_leap y); reflexivity.
Qed.

Lemma days_before_year_succ (y : Z) :
  days_before_year (y + 1)
  = days_before_year y + (if is_leap y then 366 else 365).
Proof.
  unfold days_before_year, is_leap.
  replace (y + 1 - 1) with y by lia.
  destruct (Z.eqb_spec (y mod 4) 0), (Z.eqb_spec (y mod 100) 0),
    (Z.eqb_spec (y mod 400) 0); simpl;
    Z.div_mod_to_equations; lia.
Qed.

Lemma december_end (y : Z) :
  days_before_month y 12 + 31 = (if is_leap y then 366 else 365).
Proof.
  unfold days_before_month; simpl; destruct (is_leap y); reflexivity.
Qed.

Lemma next_day_ordinal (y m d : Z) :
  1 <= m <= 12 -> 1 <= d <= days_in_month y m ->
  let '(y', m', d') := next_day y m d in
  ymd_to_ord y' m' d' = ymd_to_ord y m d + 1.
Proof.
  intros Hm Hd; unfold next_day, ymd_to_ord.
  destruct (Z.ltb_spec d (days_in_month y m)); [lia |].
  assert (Ed : d = days_in_month y m) by lia.
  destruct (Z.ltb_spec m 12).
  - rewrite days_before_month_succ by lia; lia.
  - assert (Em : m = 12) by lia; subst m.
    rewrite days_before_year_succ, <- december_end.
    change (days_before_month (y + 1) 1) with 0.
    change (days_in_month y 12) with 31 in Ed; lia.
Qed.

(** The weekday that [convert_date] prints follows the calendar: the
    ordinal of the day after a date is one more than that of the date, the
    weekday of the day after is the next weekday, Sunday being followed by
    Monday, and 2021-07-06 is a Tuesday. *)
Theorem weekday_follows_calendar :
  forall (dt : datetime),
    valid dt = true ->
    let '(y', m', d') := next_day (year dt) (month dt) (day dt) in
    ymd_to_ord y' m' d' = ymd_to_ord (year dt) (month dt) (day dt) + 1
    /\ weekday (mk_datetime y' m' d' 0 0 0 0 None) = (weekday dt + 1) mod 7
    /\ weekday (mk_datetime 2021 7 6 0 0 0 0 None) = 1
    /\ day_name C_locale 1 = "Tuesday".
Proof.
  intros dt Hvalid.
  assert (Hm : 1 <= month dt <= 12) by (apply valid_bounds; assumption).
  assert (Hd : 1 <= day dt <= days_in_month (year dt) (month dt)).
  { unfold valid in Hvalid.
    repeat (apply andb_prop in Hvalid; destruct Hvalid as [Hvalid ?]).
    repeat match goal with
           | H : (_ <=? _) = true |- _ => apply Z.leb_le in H
           end.
    lia. }
  pose proof (next_day_ordinal (year dt) (month dt) (day dt) Hm Hd) as H.
  destruct (next_day (year dt) (month dt) (day dt)) as [[y' m'] d'].
  split; [assumption |].
  split; [| split; reflexivity].
  unfold weekday; simpl year; simpl month; simpl day.
  rewrite H.
  replace (ymd_to_ord (year dt) (month dt) (day dt) + 1 + 6)
    with (ymd_to_ord (year dt) (month dt) (day dt) + 6 + 1) by lia.
  rewrite Z.add_mod_idemp_l by lia; reflexivity.
Qed.

Lemma weekday_follows_calendar_witness :
  ymd_to_ord 2022 1 1 = ymd_to_ord 2021 12 31 + 1
  /\ weekday (mk_datetime 2022 1 1 0 0 0 0 None)
     = (weekday (mk_datetime 2021 12 31 0 0 0 0 None) + 1) mod 7
  /\ weekday (mk_datetime 2021 7 6 0 0 0 0 None) = 1
  /\ day_name C_locale 1 = "Tuesday".
Proof.
  apply (weekday_follows_calendar (mk_datetime 2021 12 31 0 0 0 0 None)).
  reflexivity.
Defined.

(** ** The index that [find_min] and [find_max] return *)

Lemma Forall2_nth_error_right {A B : Type} (R : A -> B -> Prop) (l : list A)
  (l' : list B) (i : nat) (y : B) :
  Forall2 R l l' -> nth_error l' i = Some y ->
  exists x, nth_error l i = Some x /\ R x y.
Proof.
  intros H; revert i; induction H as [| a b l l' Hab _ IH]; intros i Hi.
  - destruct i; discriminate.
  - destruct i as [| i]; simpl in *.
    + injection Hi as <-; exists a; auto.
    + apply IH; assumption.
Qed.

Lemma py_max_index_Ok (l : list nat) (i : nat) :
  py_max_index l = Ok i -> In i l /\ forall j, In j l -> (j <= i)%nat.
Proof.
  intros H.
  assert (Hne : l <> []) by (intros ->; discriminate).
  destruct (py_max_index_spec l Hne) as [i' [Hi' Hspec]].
  rewrite Hi' in H; injection H as <-; assumption.
Qed.

(** What a pair returned by [find_min] says about the coerced list. *)
Lemma find_min_Ok (weather_data : list pyval) (m : float) (i : nat) :
  find_min weather_data = Ok (Tuple2 m i) ->
  exists x l,
    comprehension py_float weather_data = Ok (x :: l)
    /\ m = select flt l x
    /\ py_max_index (occurrences (x :: l) m) = Ok i.
Proof.
  unfold find_min; intros H.
  destruct (comprehension py_float weather_data) as [l | e]; [| discriminate].
  rewrite bind_Ok in H.
  destruct l as [| x l]; [discriminate |].
  simpl in H.
  destruct (py_max_index (occurrences (x :: l) (select flt l x))) as [j | e]
    eqn:E; [| discriminate].
  rewrite bind_Ok in H; injection H as <- <-.
  exists x, l; auto.
Qed.

Lemma find_max_Ok (weather_data : list pyval) (m : float) (i : nat) :
  find_max weather_data = Ok (Tuple2 m i) ->
  exists x l,
    comprehension py_float weather_data = Ok (x :: l)
    /\ m = select fgt l x
    /\ py_max_index (occurrences (x :: l) m) = Ok i.
Proof.
  unfold find_max; intros H.
  destruct (comprehension py_float weather_data) as [l | e]; [| discriminate].
  rewrite bind_Ok in H.
  destruct l as [| x l]; [discriminate |].
  simpl in H.
  destruct (py_max_index (occurrences (x :: l) (select fgt l x))) as [j | e]
    eqn:E; [| discriminate].
  rewrite bind_Ok in H; injection H as <- <-.
  exists x, l; auto.
Qed.

Lemma occurrence_in_input (weather_data : list pyval) (l : list float)
  (m : float) (i : nat) :
  comprehension py_float weather_data = Ok l ->
  py_max_index (occurrences l m) = Ok i ->
  (i < List.length weather_data)%nat
  /\ exists x y,
       nth_error weather_data i = Some x /\ py_float x = Ok y
       /\ feq y m = true.
Proof.
  intros Hl Hi.
  apply py_max_index_Ok in Hi; destruct Hi as [Hi _].
  apply in_occurrences in Hi; destruct Hi as [y [Hy Heq]].
  apply comprehension_Ok_iff in Hl.
  destruct (Forall2_nth_error_right _ _ _ _ _ Hl Hy) as [x [Hx Hxy]].
  split; [apply nth_error_Some; congruence |].
  exists x, y; auto.
Qed.

(** The index of a returned pair is a position of the argument, and the
    element there coerces to a float equal to the returned value: indexing
    the series with it, as [generate_summary] does, cannot go out of
    range. *)
Theorem find_min_find_max_index_in_range :
  forall (weather_data : list pyval) (m : float) (i : nat),
    find_min weather_data = Ok (Tuple2 m i)
    \/ find_max weather_data = Ok (Tuple2 m i) ->
    (i < List.length weather_data)%nat
    /\ exists x y,
         nth_error weather_data i = Some x /\ py_float x = Ok y
         /\ feq y m = true.
Proof.
  intros weather_data m i [H | H].
  - destruct (find_min_Ok _ _ _ H) as [x [l [Hl [_ Hi]]]].
    apply (occurrence_in_input _ _ _ _ Hl Hi).
  - destruct (find_max_Ok _ _ _ H) as [x [l [Hl [_ Hi]]]].
    apply (occurrence_in_input _ _ _ _ Hl Hi).
Qed.

Lemma find_min_find_max_index_in_range_witness :
  (3 < List.length [PInt 5; PInt 2; PInt 9; PInt 9])%nat
  /\ exists x y,
       nth_error [PInt 5; PInt 2; PInt 9; PInt 9] 3 = Some x
       /\ py_float x = Ok y /\ feq y (int_float 9) = true.
Proof.
  apply (find_min_find_max_index_in_range
           [PInt 5; PInt 2; PInt 9; PInt 9] (int_float 9) 3).
  right; vm_compute; reflexivity.
Defined.

(** ** NaN after the first position *)

Lemma select_flt_not_nan (l : list float) (x : float) :
  is_nan x = false -> is_nan (select flt l x) = false.
Proof.
  intros Hx.
  destruct (select_inv float flt flt_irrefl flt_trans l x)
    as [[Hm | [_ Hb]] _].
  - rewrite Hm; assumption.
  - apply (flt_not_nan _ _ Hb).
Qed.

Lemma fgt_irrefl (u : float) : fgt u u = false.
Proof. apply flt_irrefl. Qed.

Lemma fgt_trans (u v w : float) :
  fgt u v = true -> fgt v w = true -> fgt u w = true.
Proof. unfold fgt; intros H1 H2; eapply flt_trans; eassumption. Qed.

Lemma select_fgt_not_nan (l : list float) (x : float) :
  is_nan x = false -> is_nan (select fgt l x) = false.
Proof.
  intros Hx.
  destruct (select_inv float fgt fgt_irrefl fgt_trans l x)
    as [[Hm | [_ Hb]] _].
  - rewrite Hm; assumption.
  - apply (flt_not_nan _ _ Hb).
Qed.

(** When the first element is not NaN, [find_min] and [find_max] succeed
    whatever follows: the NaN elements after the first are never selected,
    the value returned is an element that is below (above) every element
    other than NaN, and the index is its last occurrence. *)
Theorem find_min_find_max_skip_later_nan :
  forall (weather_data : list pyval) (x : float) (l : list float),
    comprehension py_float weather_data = Ok (x :: l) ->
    is_nan x = false ->
    (exists m i,
        find_min weather_data = Ok (Tuple2 m i)
        /\ is_nan m = false /\ In m (x :: l)
        /\ (forall y, In y (x :: l) -> is_nan y = false -> fle m y = true)
        /\ last_occurrence (x :: l) m i)
    /\ (exists m i,
           find_max weather_data = Ok (Tuple2 m i)
           /\ is_nan m = false /\ In m (x :: l)
           /\ (forall y, In y (x :: l) -> is_nan y = false -> fle y m = true)
           /\ last_occurrence (x :: l) m i).
Proof.
  intros weather_data x l Hl Hx; split.
  - pose proof (select_flt_not_nan l x Hx) as Hm.
    destruct (select_spec float flt flt_irrefl flt_trans l x) as [Hin Hall].
    destruct (last_index_spec (x :: l) _ Hin Hm) as [i [Hi Hlast]].
    exists (select flt l x), i.
    split; [unfold find_min; rewrite Hl, bind_Ok; simpl; rewrite Hi;
            reflexivity |].
    repeat split; try assumption; try apply Hlast.
    intros y Hy Hnan; apply fle_iff_not_flt; auto.
  - pose proof (select_fgt_not_nan l x Hx) as Hm.
    destruct (select_spec float fgt fgt_irrefl fgt_trans l x) as [Hin Hall].
    destruct (last_index_spec (x :: l) _ Hin Hm) as [i [Hi Hlast]].
    exists (select fgt l x), i.
    split; [unfold find_max; rewrite Hl, bind_Ok; simpl; rewrite Hi;
            reflexivity |].
    repeat split; try assumption; try apply Hlast.
    intros y Hy Hnan; apply fle_iff_not_flt; auto.
    apply (Hall y Hy).
Qed.

Lemma find_min_find_max_skip_later_nan_witness :
  (exists m i,
      find_min [PInt 5; PStr "nan"; PInt 2] = Ok (Tuple2 m i)
      /\ is_nan m = false /\ In m [int_float 5; S754_nan; int_float 2]
      /\ (forall y, In y [int_float 5; S754_nan; int_float 2] ->
                    is_nan y = false -> fle m y = true)
      /\ last_occurrence [int_float 5; S754_nan; int_float 2] m i)
  /\ (exists m i,
         find_max [PInt 5; PStr "nan"; PInt 2] = Ok (Tuple2 m i)
         /\ is_nan m = false /\ In m [int_float 5; S754_nan; int_float 2]
         /\ (forall y, In y [int_float 5; S754_nan; int_float 2] ->
                       is_nan y = false -> fle y m = true)
         /\ last_occurrence [int_float 5; S754_nan; int_float 2] m i).
Proof.
  apply (find_min_find_max_skip_later_nan
           [PInt 5; PStr "nan"; PInt 2] (int_float 5) [S754_nan; int_float 2]).
  - vm_compute; reflexivity.
  - reflexivity.
Defined.

(** ** The minimum is below the maximum *)

Lemma occurrence_not_nan (l : list float) (m : float) (i : nat) :
  py_max_index (occurrences l m) = Ok i -> is_nan m = false.
Proof.
  intros H; apply py_max_index_Ok in H; destruct H as [H _].
  apply in_occurrences in H; destruct H as [y [_ Heq]].
  destruct m; try reflexivity.
  destruct y as [[] | [] | | [] my ey]; discriminate.
Qed.

(** Whenever [find_min] and [find_max] both return a pair for the same
    list, the value of [find_min] is at most the value of [find_max]. *)
Theorem find_min_below_find_max :
  forall (weather_data : list pyval) (low high : float) (i j : nat),
    find_min weather_data = Ok (Tuple2 low i) ->
    find_max weather_data = Ok (Tuple2 high j) ->
    fle low high = true.
Proof.
  intros weather_data low high i j Hmin Hmax.
  destruct (find_min_Ok _ _ _ Hmin) as [x [l [Hl [Hlow Hi]]]].
  destruct (find_max_Ok _ _ _ Hmax) as [x' [l' [Hl' [Hhigh Hj]]]].
  rewrite Hl in Hl'; injection Hl' as <- <-.
  pose proof (occurrence_not_nan _ _ _ Hi) as Hlow_nan.
  pose proof (occurrence_not_nan _ _ _ Hj) as Hhigh_nan.
  apply fle_iff_not_flt; try assumption.
  destruct (select_spec float flt flt_irrefl flt_trans l x) as [_ Hall].
  destruct (select_spec float fgt fgt_irrefl fgt_trans l x) as [Hin _].
  rewrite Hlow, Hhigh; apply Hall; assumption.
Qed.

Lemma find_min_below_find_max_witness :
  fle (int_float 2) (int_float 9) = true.
Proof.
  apply (find_min_below_find_max [PInt 5; PInt 2; PInt 9; PInt 9]
           (int_float 2) (int_float 9) 1 3); vm_compute; reflexivity.
Defined.

(** ** The mean does not depend on the order of the data *)

From Stdlib Require Import Permutation.

Lemma exact_sum_step_comm (acc : Z * positive) (x y : float) :
  (let '(a, b) :=
     (let '(a, b) := acc in
      let '(c, d) := to_ratio x in (a * Zpos d + c * Zpos b, (b * d)%positive))
   in
   let '(c, d) := to_ratio y in (a * Zpos d + c * Zpos b, (b * d)%positive))
  = (let '(a, b) :=
       (let '(a, b) := acc in
        let '(c, d) := to_ratio y in
        (a * Zpos d + c * Zpos b, (b * d)%positive))
     in
     let '(c, d) := to_ratio x in (a * Zpos d + c * Zpos b, (b * d)%positive)).
Proof.
  destruct acc as [a b].
  destruct (to_ratio x) as [c d], (to_ratio y) as [c' d'].
  f_equal; [rewrite !Pos2Z.inj_mul; ring | lia].
Qed.

Lemma fold_left_permutation {A B : Type} (f : A -> B -> A) (l l' : list B) :
  (forall a x y, f (f a x) y = f (f a y) x) ->
  Permutation l l' -> forall a, fold_left f l a = fold_left f l' a.
Proof.
  intros Hcomm H; induction H as [| x l l' _ IH | x y l | l l' l'' _ IH1 _ IH2];
    intros a; simpl.
  - reflexivity.
  - apply IH.
  - rewrite Hcomm; reflexivity.
  - rewrite IH1; apply IH2.
Qed.

Lemma exact_sum_permutation (l l' : list float) :
  Permutation l l' -> Statistics.exact_sum l = Statistics.exact_sum l'.
Proof.
  intros H; unfold Statistics.exact_sum.
  apply fold_left_permutation; [| assumption].
  intros a x y; apply exact_sum_step_comm.
Qed.

Lemma forallb_permutation {A : Type} (p : A -> bool) (l l' : list A) :
  Permutation l l' -> forallb p l = true -> forallb p l' = true.
Proof.
  intros H Hl; rewrite forallb_forall in *.
  intros x Hx; apply Hl.
  apply (Permutation_in x (Permutation_sym H)); assumption.
Qed.

Lemma mean_permutation (l l' : list float) :
  Permutation l l' -> forallb is_finite l = true ->
  Statistics.mean l' = Statistics.mean l.
Proof.
  intros H Hfin.
  pose proof (forallb_permutation _ _ _ H Hfin) as Hfin'.
  pose proof (Permutation_length H) as Hlen.
  pose proof (exact_sum_permutation _ _ H) as Hsum.
  unfold Statistics.mean.
  destruct l as [| x l]; destruct l' as [| x' l']; try discriminate;
    [reflexivity |].
  rewrite Hfin, Hfin', Hsum, Hlen; reflexivity.
Qed.

(** The coercion of a permuted list is the permuted coercion. *)
Lemma comprehension_permutation {A B : Type} (f : A -> result B)
  (l l' : list A) :
  Permutation l l' ->
  forall ys, comprehension f l = Ok ys ->
  exists ys', comprehension f l' = Ok ys' /\ Permutation ys ys'.
Proof.
  intros H; induction H as [| x l l' _ IH | x y l | l l' l'' _ IH1 _ IH2];
    intros ys Hys.
  - exists ys; split; [assumption | apply Permutation_refl].
  - simpl in Hys |- *.
    destruct (f x) as [b | e]; [| discriminate].
    rewrite bind_Ok in Hys |- *.
    destruct (comprehension f l) as [bs | e]; [| discriminate].
    rewrite bind_Ok in Hys; injection Hys as <-.
    destruct (IH bs eq_refl) as [bs' [-> Hp]].
    exists (b :: bs'); split; [reflexivity | constructor; assumption].
  - simpl in Hys |- *.
    destruct (f y) as [b | e]; [| discriminate].
    rewrite bind_Ok in Hys.
    destruct (f x) as [b' | e]; [| discriminate].
    rewrite bind_Ok in Hys |- *.
    destruct (comprehension f l) as [bs | e]; [| discriminate].
    rewrite !bind_Ok in Hys; injection Hys as <-.
    exists (b' :: b :: bs); split; [reflexivity | apply perm_swap].
  - destruct (IH1 ys Hys) as [ys' [H1 Hp1]].
    destruct (IH2 ys' H1) as [ys'' [H2 Hp2]].
    exists ys''; split; [assumption | eapply Permutation_trans; eassumption].
Qed.

(** For finite data [calculate_mean] returns the same value for every
    order of the readings: the sum is taken exactly and rounded once. *)
Theorem calculate_mean_order_independent :
  forall (weather_data weather_data' : list pyval) (l : list float),
    Permutation weather_data weather_data' ->
    comprehension py_float weather_data = Ok l ->
    forallb is_finite l = true ->
    calculate_mean weather_data' = calculate_mean weather_data.
Proof.
  intros weather_data weather_data' l Hperm Hl Hfin.
  destruct (comprehension_permutation _ _ _ Hperm l Hl) as [l' [Hl' Hp]].
  unfold calculate_mean; rewrite Hl, Hl', !bind_Ok.
  apply mean_permutation; assumption.
Qed.

Lemma calculate_mean_order_independent_witness :
  calculate_mean [PInt 55; PStr "60.5"; PInt 49]
  = calculate_mean [PStr "60.5"; PInt 55; PInt 49].
Proof.
  apply (calculate_mean_order_independent
           [PStr "60.5"; PInt 55; PInt 49] [PInt 55; PStr "60.5"; PInt 49]
           [of_Q 605 10; int_float 55; int_float 49]).
  - apply perm_swap.
  - vm_compute; reflexivity.
  - reflexivity.
Defined.

(** ** Records with fewer than three fields *)

Lemma getitem_length {A : Type} (l : list A) (i : nat) :
  (i < List.length l)%nat -> exists x, getitem l i = Ok x.
Proof.
  intros H; apply nth_error_Some in H; unfold getitem.
  destruct (nth_error l i) as [x |]; [exists x; reflexivity | congruence].
Qed.

Lemma getitem_short {A : Type} (l : list A) (i : nat) :
  (List.length l <= i)%nat -> getitem l i = Raise IndexError.
Proof.
  intros H; apply nth_error_None in H; unfold getitem; rewrite H; reflexivity.
Qed.

(** The first loop of [generate_summary] raises [IndexError] at the first
    record with fewer than three fields, and nothing else. *)
Lemma collect_loop_short (weather_data : list day_record)
  (temps : list pyval * list pyval) :
  Exists (fun day => (List.length day < 3)%nat) weather_data ->
  for_each
    (fun temps day =>
       low <- getitem day 1 ;;
       high <- getitem day 2 ;;
       Ok (fst temps ++ [low], snd temps ++ [high])%list)
    weather_data temps
  = Raise IndexError.
Proof.
  revert temps; induction weather_data as [| day weather_data IH];
    intros temps H; [inversion H |].
  simpl.
  destruct (Nat.lt_ge_cases (List.length day) 3) as [Hshort | Hlong].
  - destruct (Nat.lt_ge_cases 1 (List.length day)) as [H1 | H1].
    + destruct (getitem_length day 1 H1) as [low ->].
      rewrite bind_Ok, (getitem_short day 2) by lia; reflexivity.
    + rewrite (getitem_short day 1) by lia; reflexivity.
  - destruct (getitem_length day 1 ltac:(lia)) as [low ->].
    destruct (getitem_length day 2 ltac:(lia)) as [high ->].
    rewrite !bind_Ok; apply IH.
    inversion H; subst; [lia | assumption].
Qed.

Lemma collect_loop_Ok (weather_data : list day_record)
  (temps temps' : list pyval * list pyval) :
  for_each
    (fun temps day =>
       low <- getitem day 1 ;;
       high <- getitem day 2 ;;
       Ok (fst temps ++ [low], snd temps ++ [high])%list)
    weather_data temps
  = Ok temps' ->
  Forall (fun day => (3 <= List.length day)%nat) weather_data.
Proof.
  intros H.
  apply Forall_forall; intros day Hday.
  destruct (Nat.lt_ge_cases (List.length day) 3) as [Hshort | Hlong];
    [| assumption].
  rewrite collect_loop_short in H; [discriminate |].
  apply Exists_exists; exists day; auto.
Qed.

(** [generate_summary] raises [IndexError] on every series that has a
    record with fewer than three fields, before anything else is computed;
    a series for which it returns a string is not empty and all its
    records have at least three fields. *)
Theorem generate_summary_needs_three_fields :
  forall (LC_TIME : lc_time) (weather_data : list day_record),
    (Exists (fun day => (List.length day < 3)%nat) weather_data ->
     generate_summary LC_TIME weather_data = Raise IndexError)
    /\ (forall s,
           generate_summary LC_TIME weather_data = Ok s ->
           weather_data <> []
           /\ Forall (fun day => (3 <= List.length day)%nat) weather_data).
Proof.
  intros LC_TIME weather_data; split.
  - intros H; unfold generate_summary.
    rewrite (collect_loop_short weather_data ([], []) H); reflexivity.
  - intros s H; split.
    + intros ->; discriminate.
    + unfold generate_summary in H.
      apply bind_Ok_inv in H; destruct H as [temps [Hloop _]].
      apply (collect_loop_Ok _ _ _ Hloop).
Qed.

Lemma generate_summary_needs_three_fields_witness :
  generate_summary C_locale
    [[PStr "2021-07-06"; PInt 60; PInt 80]; [PStr "2021-07-07"; PInt 55]]
  = Raise IndexError.
Proof.
  apply (proj1 (generate_summary_needs_three_fields C_locale
                  [[PStr "2021-07-06"; PInt 60; PInt 80];
                   [PStr "2021-07-07"; PInt 55]])).
  apply Exists_cons_tl, Exists_cons_hd; simpl; lia.
Defined.

(** ** The dates that [generate_summary] reads *)

Lemma getitem_map_record (rows : list (pyval * pyval * pyval)) (i : nat)
  {B : Type} (k : pyval -> result B) :
  (day <- getitem (map record rows) i ;; date <- getitem day 0 ;; k date)
  = match nth_error rows i with
    | Some row => k (date_of row)
    | None => Raise IndexError
    end.
Proof.
  unfold getitem at 1; rewrite nth_error_map.
  destruct (nth_error rows i) as [[[d lo] hi] |]; reflexivity.
Qed.

(** [generate_summary] reads the date of the record of the maximum and of
    the record of the minimum only: two series with the same temperatures
    and the same dates at these two positions give the same result,
    whatever the other dates are, parseable or not. *)
Theorem generate_summary_reads_two_dates :
  forall (LC_TIME : lc_time) (rows rows' : list (pyval * pyval * pyval)),
    map low_of rows = map low_of rows' ->
    map high_of rows = map high_of rows' ->
    (forall m i,
        find_max (map high_of rows) = Ok (Tuple2 m i)
        \/ find_min (map low_of rows) = Ok (Tuple2 m i) ->
        option_map date_of (nth_error rows i)
        = option_map date_of (nth_error rows' i)) ->
    generate_summary LC_TIME (map record rows)
    = generate_summary LC_TIME (map record rows').
Proof.
  intros LC_TIME rows rows' Hlow Hhigh Hdates.
  assert (Hlen : List.length (map record rows)
                 = List.length (map record rows')).
  { rewrite !length_map.
    rewrite <- (length_map low_of rows), Hlow, length_map; reflexivity. }
  unfold generate_summary.
  rewrite (collect_columns rows [] []), (collect_columns rows' [] []).
  rewrite !bind_Ok; cbv beta iota.
  rewrite !app_nil_l, <- Hlow, <- Hhigh, <- Hlen.
  destruct (find_max (map high_of rows)) as [[| max_value max_index] | e]
    eqn:Emax; try reflexivity.
  rewrite !bind_Ok; unfold unpack2 at 1 3; rewrite !bind_Ok; cbv beta iota.
  rewrite !getitem_map_record.
  pose proof (Hdates max_value max_index (or_introl eq_refl)) as Hmax_date.
  destruct (nth_error rows max_index) as [max_row0 |],
    (nth_error rows' max_index) as [max_row |]; simpl in Hmax_date;
    try discriminate; [| reflexivity].
  injection Hmax_date as ->.
  destruct (convert_date LC_TIME (date_of max_row)) as [max_text | e];
    [| reflexivity].
  rewrite !bind_Ok.
  destruct (calculate_mean (map high_of rows)) as [mean_max | e];
    [| reflexivity].
  rewrite !bind_Ok.
  destruct (find_min (map low_of rows)) as [[| min_value min_index] | e]
    eqn:Emin; try reflexivity.
  rewrite !bind_Ok; unfold unpack2 at 1 2; rewrite !bind_Ok; cbv beta iota.
  rewrite !getitem_map_record.
  pose proof (Hdates min_value min_index (or_intror eq_refl)) as Hmin_date.
  destruct (nth_error rows min_index) as [min_row0 |],
    (nth_error rows' min_index) as [min_row |]; simpl in Hmin_date;
    try discriminate; [| reflexivity].
  injection Hmin_date as ->; reflexivity.
Qed.

Lemma generate_summary_reads_two_dates_witness :
  generate_summary C_locale
    (map record
       [(PStr "no date", PInt 60, PInt 70);
        (PStr "2021-07-07", PInt 55, PInt 80)])
  = generate_summary C_locale
      (map record
         [(PStr "2021-07-06", PInt 60, PInt 70);
          (PStr "2021-07-07", PInt 55, PInt 80)]).
Proof.
  apply (generate_summary_reads_two_dates C_locale
           [(PStr "no date", PInt 60, PInt 70);
            (PStr "2021-07-07", PInt 55, PInt 80)]
           [(PStr "2021-07-06", PInt 60, PInt 70);
            (PStr "2021-07-07", PInt 55, PInt 80)]).
  - reflexivity.
  - reflexivity.
  - intros m i [H | H]; vm_compute in H; injection H as _ <-; reflexivity.
Defined.

(** ** Failures of [generate_daily_summary] *)




(** ** [convert_f_to_c] on integer temperatures *)

Lemma celsius_step_check :
  forallb celsius_step_ok (Z_range (-1000) (Z.to_nat 2000)) = true.
Proof. vm_compute; reflexivity. Qed.

Lemma celsius_step (n : Z) :
  -1000 <= n < 1000 ->
  exists x y,
    convert_f_to_c (PInt n) = Ok x /\ convert_f_to_c (PInt (n + 1)) = Ok y
    /\ flt x y = true.
Proof.
  intros Hn.
  assert (H : celsius_step_ok n = true)
    by (apply (forallb_Z_range _ _ _ celsius_step_check); lia).
  unfold celsius_step_ok in H.
  destruct (convert_f_to_c (PInt n)) as [x | e]; [| discriminate].
  destruct (convert_f_to_c (PInt (n + 1))) as [y | e]; [| discriminate].
  exists x, y; auto.
Qed.

Lemma celsius_steps (k : nat) (a : Z) :
  -1000 <= a -> a + Z.of_nat (S k) <= 1000 ->
  exists x y,
    convert_f_to_c (PInt a) = Ok x
    /\ convert_f_to_c (PInt (a + Z.of_nat (S k))) = Ok y
    /\ flt x y = true.
Proof.
  intros Ha; induction k as [| k IH]; intros Hb.
  - replace (a + Z.of_nat 1) with (a + 1) by lia.
    apply celsius_step; lia.
  - destruct (IH ltac:(lia)) as [x [y [Hx [Hy Hxy]]]].
    destruct (celsius_step (a + Z.of_nat (S k)) ltac:(lia))
      as [y' [z [Hy' [Hz Hyz]]]].
    rewrite Hy in Hy'; injection Hy' as <-.
    exists x, z; repeat split; try assumption.
    + replace (a + Z.of_nat (S (S k))) with (a + Z.of_nat (S k) + 1) by lia.
      assumption.
    + eapply flt_trans; eassumption.
Qed.

(** On the integers from -1000 to 1000 [convert_f_to_c] is strictly
    increasing: a warmer Fahrenheit temperature always gives a strictly
    greater Celsius value, the rounding to one decimal never merges or
    swaps two of them. *)
Theorem convert_f_to_c_strictly_increasing :
  forall a b : Z,
    -1000 <= a -> a < b -> b <= 1000 ->
    exists x y,
      convert_f_to_c (PInt a) = Ok x /\ convert_f_to_c (PInt b) = Ok y
      /\ flt x y = true.
Proof.
  intros a b Ha Hab Hb.
  replace b with (a + Z.of_nat (S (Z.to_nat (b - a - 1)))) by lia.
  apply celsius_steps; lia.
Qed.

Lemma convert_f_to_c_strictly_increasing_witness :
  exists x y,
    convert_f_to_c (PInt 55) = Ok x /\ convert_f_to_c (PInt 80) = Ok y
    /\ flt x y = true.
Proof.
  apply (convert_f_to_c_strictly_increasing 55 80); lia.
Defined.




(** ** The characters that [convert_date] reads *)









(** ** What [load_data_from_csv] returns *)

Lemma row_record_shape (fieldnames row : list string) (rec : day_record) :
  row_record fieldnames row = Ok rec -> loaded_shape rec.
Proof.
  unfold row_record; intros H.
  apply bind_Ok_inv in H; destruct H as [date [_ H]].
  apply bind_Ok_inv in H; destruct H as [min_cell [_ H]].
  apply bind_Ok_inv in H; destruct H as [min_temp [_ H]].
  apply bind_Ok_inv in H; destruct H as [max_cell [_ H]].
  apply bind_Ok_inv in H; destruct H as [max_temp [_ H]].
  injection H as <-.
  destruct date as [s |].
  - exists (PStr s), min_temp, max_temp; split; [reflexivity |].
    right; exists s; reflexivity.
  - exists PNone, min_temp, max_temp; split; [reflexivity | left; reflexivity].
Qed.

(** Whatever the header and the rows are, every record that
    [load_data_from_csv] returns has exactly three fields, the date (a
    string, or [None]) and two ints, and there is one record for each
    non-blank row after the header. *)
Theorem load_data_from_csv_shape :
  forall (csv_lines : list (list string)) (recs : list day_record),
    load_data_from_csv csv_lines = Ok recs ->
    Forall loaded_shape recs
    /\ List.length recs = List.length (filter not_blank (tl csv_lines)).
Proof.
  intros csv_lines recs H.
  destruct csv_lines as [| fieldnames rows].
  - injection H as <-; split; [constructor | reflexivity].
  - rewrite load_data_from_csv_unfold in H.
    pose proof (comprehension_length _ _ _ H) as Hlen.
    apply comprehension_Ok_iff in H.
    split; [| assumption].
    clear Hlen; induction H as [| row rec rows' recs' Hrow _ IH];
      constructor; [apply (row_record_shape _ _ _ Hrow) | assumption].
Qed.

Lemma load_data_from_csv_shape_witness :
  Forall loaded_shape [[PNone; PInt 60; PInt 80]]
  /\ List.length [[PNone; PInt 60; PInt 80]]
     = List.length (filter not_blank (tl [["min"; "max"; "date"]; ["60"; "80"]])).
Proof.
  apply (load_data_from_csv_shape [["min"; "max"; "date"]; ["60"; "80"]]).
  vm_compute; reflexivity.
Defined.

(** ** From a well-formed file to the two summaries *)









